(** * Manta: a terminal work/rest timer

    A shallow embedding of [internal/model.go] (the bubbletea model of the
    timer: [NewModel], [Update], [View]) and of the outward call [notify].
    The embedding follows the newer copy of the model, the one that keeps an
    [endTime] and plays a sound; the older copy differs from it only in that
    it has no [endTime] field, does not call [PlayNotification], and lays the
    countdown line out differently.

    Go's [int] is the 64-bit signed integer, kept as a [Z] with the
    wrap-around written out ([GoInt.wrap]).  Go's [float64] is Rocq's
    primitive binary64 [float], so the comparison [Percent() == 1.0] of the
    tick handler is the IEEE comparison the program performs. *)

From Stdlib Require Import ZArith Lia List String Ascii Bool DecimalString.
From Stdlib Require Import Floats.
Import ListNotations.
Local Open Scope Z_scope.

(** ** Go's machine integers, slices and formatting *)

Module GoInt.

Definition min_int : Z := -9223372036854775808.
Definition max_int : Z := 9223372036854775807.

Definition in_range (z : Z) : Prop := min_int <= z <= max_int.

(** Two's complement wrap-around of a mathematical result into [int]. *)
Definition wrap (z : Z) : Z :=
  (z + 9223372036854775808) mod 18446744073709551616 - 9223372036854775808.

Definition add (a b : Z) : Z := wrap (a + b).
Definition sub (a b : Z) : Z := wrap (a - b).
Definition mul (a b : Z) : Z := wrap (a * b).

(** [a % b] and [a / b] truncate toward zero. *)
Definition rem (a b : Z) : Z := Z.rem a b.
Definition quo (a b : Z) : Z := wrap (Z.quot a b).

(** The conversion [float64(n)], rounding to nearest. *)
Definition float64 (z : Z) : float :=
  if z =? min_int then (-9223372036854775808)%float
  else if z <? 0 then PrimFloat.opp (PrimFloat.of_uint63 (Uint63.of_Z (- z)))
  else PrimFloat.of_uint63 (Uint63.of_Z z).

(** [len(s)] and [s[i]]; an index out of range panics ([None]). *)
Definition len {A : Type} (s : list A) : Z := Z.of_nat (List.length s).

Definition index {A : Type} (s : list A) (i : Z) : option A :=
  if (i <? 0) || (len s <=? i) then None else nth_error s (Z.to_nat i).

End GoInt.

Module Fmt.

Definition nl : string := String "010"%char EmptyString.

(** The verb [%d]. *)
Definition d (z : Z) : string := NilZero.string_of_int (Z.to_int z).

(** The verb [%02d]: at least two characters, padded with a zero on the
    left (a negative number already has two, its sign included). *)
Definition d02 (z : Z) : string :=
  let s := d z in
  if (Z.of_nat (String.length s) <? 2) then ("0" ++ s)%string else s.

(** [strings.Repeat(s, n)]. *)
Fixpoint Repeat (s : string) (n : nat) : string :=
  match n with
  | O => EmptyString
  | S k => (s ++ Repeat s k)%string
  end.

End Fmt.

(** [math.Min] and [math.Max] on [float64], with their special cases for
    the infinities, NaN and the two zeros. *)
Module GoMath.

Definition Min (x y : float) : float :=
  if PrimFloat.eqb x PrimFloat.neg_infinity || PrimFloat.eqb y PrimFloat.neg_infinity
  then PrimFloat.neg_infinity
  else if PrimFloat.is_nan x || PrimFloat.is_nan y then PrimFloat.nan
  else if PrimFloat.eqb x 0 && PrimFloat.eqb x y
  then (if PrimFloat.get_sign x then x else y)
  else if PrimFloat.ltb x y then x else y.

Definition Max (x y : float) : float :=
  if PrimFloat.eqb x PrimFloat.infinity || PrimFloat.eqb y PrimFloat.infinity
  then PrimFloat.infinity
  else if PrimFloat.is_nan x || PrimFloat.is_nan y then PrimFloat.nan
  else if PrimFloat.eqb x 0 && PrimFloat.eqb x y
  then (if PrimFloat.get_sign x then y else x)
  else if PrimFloat.ltb y x then x else y.

End GoMath.

(** ** Constants of the package *)

Definition work : Z := 25 * 60.
Definition rest : Z := 5 * 60.
Definition WORKTIME : string := "work".
Definition RESTTIME : string := "rest".

(** [Mapping] is a [map[string]int]; a lookup of a missing key is [0]. *)
Definition Mapping : Type := list (string * Z).

Definition mapping : Mapping := [(WORKTIME, work); (RESTTIME, rest)].

Fixpoint lookup (mp : Mapping) (k : string) : Z :=
  match mp with
  | [] => 0
  | (k', v) :: tl => if String.eqb k k' then v else lookup tl k
  end.

Definition choices : list string := [WORKTIME; RESTTIME].

Definition padding : Z := 2.
Definition maxWidth : Z := 80.

(** ** The progress bar (charmbracelet/bubbles), an external component

    The timer reads and writes the bar's [Width], sets its target with
    [SetPercent] and reads it back with [Percent]; the bar stores the target
    clamped to [0, 1].  The easing animation, the rendering and the terminal
    styling are the toolkit's and stay abstract. *)

Record progressModel (A : Type) : Type := mkProgress {
  Width : Z;
  targetPercent : float;
  anim : A
}.
Arguments mkProgress {A} _ _ _.
Arguments Width {A} _.
Arguments targetPercent {A} _.
Arguments anim {A} _.

Class Toolkit : Type := {
  (** state of the easing animation *)
  Anim : Type;
  anim0 : Anim;
  (** [SetPercent] starts a new animation towards the target *)
  retarget : Anim -> Anim;
  (** one animation frame [(id, tag)]: the new animation state, and whether
      another frame is requested *)
  frameStep : Z -> Z -> progressModel Anim -> Anim * bool;
  (** [progress.Model.View] *)
  progressView : progressModel Anim -> string;
  (** the lipgloss renderer behind [helpStyle] *)
  helpStyle : string -> string;
  (** [time.Time.Format("15:04:05")] of an instant *)
  formatClock : Z -> string
}.

(** A toolkit that renders nothing, to run the model on concrete inputs. *)
Definition plainToolkit : Toolkit := {|
  Anim := unit;
  anim0 := tt;
  retarget := fun a => a;
  frameStep := fun _ _ p => (anim p, false);
  progressView := fun _ => EmptyString;
  helpStyle := fun s => s;
  formatClock := fun _ => EmptyString
|}.

(** Commands handed back to the bubbletea runtime.
    Modelled from the spec: [tickCmd], the command that arms the next
    one-second tick, is declared in a file of the package that is not among
    the sources at hand; it is kept as an opaque command. *)
#[local] Set Warnings "-register-all".
Inductive Cmd : Type :=
| nilCmd
| Quit
| tickCmd
| nextFrame
| Batch (cs : list Cmd).

(** Calls the handler makes outward while it runs.
    Modelled from the spec: [PlayNotification], the playback of the
    notification sound, is declared in a file of the package that is not among
    the sources at hand; it is kept as an opaque call. [notify] runs
    [terminal-notifier] with the title and message given. *)
Inductive effect : Type :=
| PlayNotification
| notify (title message : string).

(** Messages the runtime delivers; [KeyMsg] carries [msg.String()], and
    [tickMsg] is the message [tickCmd] produces. *)
Inductive Msg : Type :=
| KeyMsg (key : string)
| WindowSizeMsg (w h : Z)
| tickMsg
| FrameMsg (id tag : Z)
| otherMsg.

Section Model.

Context {T : Toolkit}.

Definition progress_New : progressModel Anim :=
  mkProgress 40 0%float anim0.

Definition SetPercent (p : float) (pm : progressModel Anim)
  : progressModel Anim * Cmd :=
  (mkProgress (Width pm) (GoMath.Max 0 (GoMath.Min 1 p)) (retarget (anim pm)),
   nextFrame).

Definition Percent (pm : progressModel Anim) : float := targetPercent pm.

Definition progress_Update (id tag : Z) (pm : progressModel Anim)
  : progressModel Anim * Cmd :=
  let (a, again) := frameStep id tag pm in
  (mkProgress (Width pm) (targetPercent pm) a,
   if again then nextFrame else nilCmd).

(** ** The model *)

Record model : Type := mkModel {
  progress : progressModel Anim;
  timeLeft : Z;
  timeType : string;
  cursor : Z;
  choice : string;
  pause : bool;
  endTime : Z
}.

Definition NewModel : model :=
  mkModel progress_New 0 WORKTIME 0 EmptyString false 0.

Definition Init (m : model) : Cmd := tickCmd.

Definition set_progress (m : model) (p : progressModel Anim) : model :=
  mkModel p (timeLeft m) (timeType m) (cursor m) (choice m) (pause m) (endTime m).
Definition set_timeLeft (m : model) (v : Z) : model :=
  mkModel (progress m) v (timeType m) (cursor m) (choice m) (pause m) (endTime m).
Definition set_timeType (m : model) (v : string) : model :=
  mkModel (progress m) (timeLeft m) v (cursor m) (choice m) (pause m) (endTime m).
Definition set_cursor (m : model) (v : Z) : model :=
  mkModel (progress m) (timeLeft m) (timeType m) v (choice m) (pause m) (endTime m).
Definition set_pause (m : model) (v : bool) : model :=
  mkModel (progress m) (timeLeft m) (timeType m) (cursor m) (choice m) v (endTime m).
Definition set_endTime (m : model) (v : Z) : model :=
  mkModel (progress m) (timeLeft m) (timeType m) (cursor m) (choice m) (pause m) v.
Definition set_Width (m : model) (v : Z) : model :=
  set_progress m
    (mkProgress v (targetPercent (progress m)) (anim (progress m))).

(** [time.Now().Add(time.Duration(m.timeLeft) * time.Second)], instants and
    durations in nanoseconds. *)
Definition deadline (now : Z) (m : model) : Z :=
  now + GoInt.mul (timeLeft m) 1000000000.

Definition key_in (k : string) (ks : list string) : bool :=
  existsb (String.eqb k) ks.

(** [Update]: the new model, the command returned and the outward calls
    made, or [None] when the handler panics. [now] is the reading of the
    clock. *)
Definition Update (now : Z) (m : model) (msg : Msg)
  : option (model * Cmd * list effect) :=
  match msg with
  | KeyMsg k =>
      if key_in k ["ctrl+c"; "q"]%string then Some (m, Quit, [])
      else if key_in k ["enter"]%string then
        match GoInt.index choices (cursor m) with
        | None => None
        | Some c =>
            if String.eqb c WORKTIME then
              let m := set_timeLeft m work in
              let m := set_timeType m WORKTIME in
              let m := set_endTime m (deadline now m) in
              Some (m, nilCmd, [])
            else if String.eqb c RESTTIME then
              let m := set_timeLeft m rest in
              let m := set_timeType m RESTTIME in
              let m := set_endTime m (deadline now m) in
              Some (m, nilCmd, [])
            else Some (m, nilCmd, [])
        end
      else if key_in k ["down"; "j"]%string then
        let m := set_cursor m (GoInt.add (cursor m) 1) in
        let m := if GoInt.len choices <=? cursor m then set_cursor m 0 else m in
        Some (m, nilCmd, [])
      else if key_in k [" "]%string then
        let m := set_endTime m (deadline now m) in
        let m := set_pause m (negb (pause m)) in
        Some (m, nilCmd, [])
      else if key_in k ["esc"]%string then
        let m := set_timeLeft m 0 in
        let m := set_pause m false in
        Some (m, nilCmd, [])
      else if key_in k ["up"; "k"]%string then
        let m := set_cursor m (GoInt.sub (cursor m) 1) in
        let m := if cursor m <? 0
                 then set_cursor m (GoInt.sub (GoInt.len choices) 1) else m in
        Some (m, nilCmd, [])
      else Some (m, nilCmd, [])
  | WindowSizeMsg w _ =>
      let m := set_Width m (GoInt.sub (GoInt.sub w (GoInt.mul padding 2)) 4) in
      let m := if maxWidth <? Width (progress m) then set_Width m maxWidth else m in
      Some (m, nilCmd, [])
  | tickMsg =>
      if pause m then Some (m, tickCmd, [])
      else
        let fx :=
          if PrimFloat.eqb (Percent (progress m)) 1 && (timeLeft m =? 0)
          then [PlayNotification;
                notify ("Time to " ++ timeType m ++ " is left") EmptyString]
          else [] in
        let m := set_timeLeft m (GoInt.sub (timeLeft m) 1) in
        let percent := 0%float in
        let percent :=
          if String.eqb (timeType m) WORKTIME
          then (1 - GoInt.float64 (timeLeft m) / GoInt.float64 work)%float
          else percent in
        let percent :=
          if String.eqb (timeType m) RESTTIME
          then (1 - GoInt.float64 (timeLeft m) / GoInt.float64 rest)%float
          else percent in
        let (p, cmd) := SetPercent percent (progress m) in
        Some (set_progress m p, Batch [tickCmd; cmd], fx)
  | FrameMsg id tag =>
      let (p, cmd) := progress_Update id tag (progress m) in
      Some (set_progress m p, cmd, [])
  | otherMsg => Some (m, nilCmd, [])
  end.

(** ** The view *)

(** The body of the loop [for i := 0; i < len(choices); i++], run over the
    choices from index [i] on, appending to the builder [s]. *)
Fixpoint menuRows (cur i : Z) (cs : list string) (s : string) : string :=
  match cs with
  | [] => s
  | c :: cs' =>
      let s := (s ++ (if Z.eqb cur i then "[•] " else "[ ] "))%string in
      let s := (s ++ c)%string in
      let totalTime := lookup mapping c in
      let minutes := GoInt.quo (GoInt.rem totalTime 3600) 60 in
      let s := (s ++ (" (" ++ Fmt.d02 minutes ++ "m)"))%string in
      let s := (s ++ Fmt.nl)%string in
      menuRows cur (GoInt.add i 1) cs' s
  end.

Definition menuView (m : model) : string :=
  let s := EmptyString in
  let s := (s ++ ("Choose time type:" ++ Fmt.nl))%string in
  let s := menuRows (cursor m) 0 choices s in
  let s := (s ++ (Fmt.nl ++ "(press q to quit)" ++ Fmt.nl))%string in
  s.

Definition glyph (m : model) : string :=
  if pause m then "⏸️"%string else "▶️"%string.

Definition minutesLeft (m : model) : Z :=
  GoInt.quo (GoInt.rem (timeLeft m) 3600) 60.

Definition secondsLeft (m : model) : Z :=
  GoInt.sub (timeLeft m) (GoInt.mul (minutesLeft m) 60).

Definition countdownView (m : model) : string :=
  let pad := Fmt.Repeat " " (Z.to_nat padding) in
  let minutes := minutesLeft m in
  let seconds := secondsLeft m in
  (Fmt.nl ++
   pad ++ timeType m ++ Fmt.nl ++ Fmt.nl ++
   pad ++ progressView (progress m) ++ Fmt.nl ++ Fmt.nl ++
   pad ++ (Fmt.d02 minutes ++ "m" ++ Fmt.d02 seconds ++ "s -> " ++
           formatClock (endTime m) ++ " " ++ glyph m) ++
   pad ++ helpStyle "Press 'q' key to quit")%string.

Definition View (m : model) : string :=
  if timeLeft m <=? 0 then menuView m else countdownView m.

(** ** Running the event loop *)

Definition is_Quit (c : Cmd) : bool :=
  match c with Quit => true | _ => false end.

(** The runtime hands the messages to [Update] one at a time, each with the
    clock reading at that moment, and stops at [tea.Quit]; the result is the
    last model and the outward calls made, in order. *)
Fixpoint run (m : model) (evs : list (Z * Msg)) : option (model * list effect) :=
  match evs with
  | [] => Some (m, [])
  | (now, msg) :: evs' =>
      match Update now m msg with
      | None => None
      | Some (m', c, fx) =>
          if is_Quit c then Some (m', fx)
          else match run m' evs' with
               | None => None
               | Some (m'', fx') => Some (m'', fx ++ fx')
               end
      end
  end.

(** ** The quantities the specification names *)

(** The configured duration of the phase in [timeType]. *)
Definition totalSeconds (m : model) : Z := lookup mapping (timeType m).

(** The menu is shown and no countdown is running. *)
Definition Idle (m : model) : Prop := timeLeft m <= 0.

End Model.

(** ** A concrete start for the examples: the menu with the pause flag set,
    which is [NewModel] after one press of the space bar. *)
Definition pausedMenu : @model plainToolkit := set_pause NewModel true.

(** The initial state with a countdown of 1500 seconds under way. *)
Definition workRunning : @model plainToolkit := set_timeLeft NewModel 1500.

(** The initial state with the bar's target at 1 and 0 seconds left: a
    countdown of the Work phase that has just run out. *)
Definition workDone : @model plainToolkit :=
  set_progress NewModel (mkProgress 40 1%float (@anim0 plainToolkit)).

(** The keys that move the cursor. *)
Definition cursorKey (k : string) : bool :=
  key_in k ["down"; "j"; "up"; "k"]%string.

Definition cursorEvent (e : Z * Msg) : Prop :=
  exists k, snd e = KeyMsg k /\ cursorKey k = true.

(** ** Quantities and runs the properties speak about *)

(** [1 - remaining/total] in [float64], as the tick handler computes it. *)
Definition fraction (total remaining : Z) : float :=
  (1 - GoInt.float64 remaining / GoInt.float64 total)%float.

(** A fraction that the clamp of [SetPercent] leaves alone: a number above
    0 and at most 1. *)
Definition inside_unit (p : float) : bool :=
  negb (PrimFloat.is_nan p) &&
  negb (PrimFloat.eqb p PrimFloat.infinity) &&
  negb (PrimFloat.eqb p PrimFloat.neg_infinity) &&
  negb (PrimFloat.eqb 0 p) &&
  PrimFloat.ltb 0 p && negb (PrimFloat.ltb p 0) && negb (PrimFloat.ltb 1 p).

(** What one tick of a countdown of [total] seconds that leaves [z] seconds
    must satisfy: the fraction is stored unclamped, it is above the fraction
    of the second before, and it is at most 1. *)
Definition tick_ok (total z : Z) : bool :=
  inside_unit (fraction total z) &&
  PrimFloat.ltb (fraction total (z + 1)) (fraction total z) &&
  PrimFloat.leb (fraction total z) 1.

Definition below (n : nat) : list Z := map Z.of_nat (seq 0 n).

(** [n] ticks in a row, and a whole Rest countdown from the menu: cursor
    down, enter, 300 ticks. *)
Definition ticks (n : nat) : list (Z * Msg) := repeat (0, tickMsg) n.

Definition restCountdown : list (Z * Msg) :=
  [(0, KeyMsg "down"); (0, KeyMsg "enter")] ++ ticks 300.

Definition calls {M : Type} (r : option (M * list effect)) : option (list effect) :=
  option_map snd r.

Definition isTick (e : Z * Msg) : Prop := snd e = tickMsg.

Section Derived.

Context {T : Toolkit}.

(** The state after at most [n] events: the cursor is on a choice, the
    phase is one of the two, and the remaining time lies between [-n] and
    the duration of the phase. *)
Definition Inv (n : Z) (m : model) : Prop :=
  0 <= cursor m < GoInt.len choices /\
  (timeType m = WORKTIME \/ timeType m = RESTTIME) /\
  - n <= timeLeft m <= totalSeconds m.

(** The outward calls of a tick that is not absorbed by the pause. *)
Definition completion_calls (m : model) : list effect :=
  if PrimFloat.eqb (Percent (progress m)) 1 && (timeLeft m =? 0)
  then [PlayNotification;
        notify ("Time to " ++ timeType m ++ " is left") EmptyString]
  else [].

(** The two calls made when a countdown has completed. *)
Definition completed (m : model) : list effect :=
  [PlayNotification; notify ("Time to " ++ timeType m ++ " is left") EmptyString].

End Derived.

(** ** The older copy of the model

    The copy of [model.go] kept beside [notify]: no [endTime], no sound, and
    another layout of the countdown. The progress bar, the constants, the
    messages and the commands are the same. *)

Module Legacy.

Section Model.

Context {T : Toolkit}.

Record model : Type := mkModel {
  progress : progressModel Anim;
  timeLeft : Z;
  timeType : string;
  cursor : Z;
  choice : string;
  pause : bool
}.

Definition NewModel : model :=
  mkModel progress_New 0 WORKTIME 0 EmptyString false.

Definition Init (m : model) : Cmd := tickCmd.

Definition set_progress (m : model) (p : progressModel Anim) : model :=
  mkModel p (timeLeft m) (timeType m) (cursor m) (choice m) (pause m).
Definition set_timeLeft (m : model) (v : Z) : model :=
  mkModel (progress m) v (timeType m) (cursor m) (choice m) (pause m).
Definition set_timeType (m : model) (v : string) : model :=
  mkModel (progress m) (timeLeft m) v (cursor m) (choice m) (pause m).
Definition set_cursor (m : model) (v : Z) : model :=
  mkModel (progress m) (timeLeft m) (timeType m) v (choice m) (pause m).
Definition set_pause (m : model) (v : bool) : model :=
  mkModel (progress m) (timeLeft m) (timeType m) (cursor m) (choice m) v.
Definition set_Width (m : model) (v : Z) : model :=
  set_progress m
    (mkProgress v (targetPercent (progress m)) (anim (progress m))).

Definition Update (m : model) (msg : Msg)
  : option (model * Cmd * list effect) :=
  match msg with
  | KeyMsg k =>
      if key_in k ["ctrl+c"; "q"]%string then Some (m, Quit, [])
      else if key_in k ["enter"]%string then
        match GoInt.index choices (cursor m) with
        | None => None
        | Some c =>
            if String.eqb c WORKTIME then
              let m := set_timeLeft m work in
              let m := set_timeType m WORKTIME in
              Some (m, nilCmd, [])
            else if String.eqb c RESTTIME then
              let m := set_timeLeft m rest in
              let m := set_timeType m RESTTIME in
              Some (m, nilCmd, [])
            else Some (m, nilCmd, [])
        end
      else if key_in k ["down"; "j"]%string then
        let m := set_cursor m (GoInt.add (cursor m) 1) in
        let m := if GoInt.len choices <=? cursor m then set_cursor m 0 else m in
        Some (m, nilCmd, [])
      else if key_in k [" "]%string then
        let m := set_pause m (negb (pause m)) in
        Some (m, nilCmd, [])
      else if key_in k ["esc"]%string then
        let m := set_timeLeft m 0 in
        let m := set_pause m false in
        Some (m, nilCmd, [])
      else if key_in k ["up"; "k"]%string then
        let m := set_cursor m (GoInt.sub (cursor m) 1) in
        let m := if cursor m <? 0
                 then set_cursor m (GoInt.sub (GoInt.len choices) 1) else m in
        Some (m, nilCmd, [])
      else Some (m, nilCmd, [])
  | WindowSizeMsg w _ =>
      let m := set_Width m (GoInt.sub (GoInt.sub w (GoInt.mul padding 2)) 4) in
      let m := if maxWidth <? Width (progress m) then set_Width m maxWidth else m in
      Some (m, nilCmd, [])
  | tickMsg =>
      if pause m then Some (m, tickCmd, [])
      else
        let fx :=
          if PrimFloat.eqb (Percent (progress m)) 1 && (timeLeft m =? 0)
          then [notify ("Time to " ++ timeType m ++ " is left") EmptyString]
          else [] in
        let m := set_timeLeft m (GoInt.sub (timeLeft m) 1) in
        let percent := 0%float in
        let percent :=
          if String.eqb (timeType m) WORKTIME
          then (1 - GoInt.float64 (timeLeft m) / GoInt.float64 work)%float
          else percent in
        let percent :=
          if String.eqb (timeType m) RESTTIME
          then (1 - GoInt.float64 (timeLeft m) / GoInt.float64 rest)%float
          else percent in
        let (p, cmd) := SetPercent percent (progress m) in
        Some (set_progress m p, Batch [tickCmd; cmd], fx)
  | FrameMsg id tag =>
      let (p, cmd) := progress_Update id tag (progress m) in
      Some (set_progress m p, cmd, [])
  | otherMsg => Some (m, nilCmd, [])
  end.

Definition menuView (m : model) : string :=
  let s := EmptyString in
  let s := (s ++ ("Choose time type:" ++ Fmt.nl))%string in
  let s := menuRows (cursor m) 0 choices s in
  let s := (s ++ (Fmt.nl ++ "(press q to quit)" ++ Fmt.nl))%string in
  s.

Definition countdownView (m : model) : string :=
  let pad := Fmt.Repeat " " (Z.to_nat padding) in
  let minutes := GoInt.quo (GoInt.rem (timeLeft m) 3600) 60 in
  let seconds := GoInt.sub (timeLeft m) (GoInt.mul minutes 60) in
  let pause := if pause m then "⏸️"%string else "▶️"%string in
  (Fmt.nl ++
   pad ++ (Fmt.d02 (GoInt.quo (GoInt.rem work 3600) 60) ++ "m/" ++
           Fmt.d02 (GoInt.quo (GoInt.rem rest 3600) 60) ++ "m") ++
     Fmt.nl ++ Fmt.nl ++
   pad ++ progressView (progress m) ++ Fmt.nl ++ Fmt.nl ++
   pad ++ (timeType m ++ " -> " ++ Fmt.d02 minutes ++ "m" ++
           Fmt.d02 seconds ++ "s " ++ pause) ++
   pad ++ helpStyle "Press 'q' key to quit")%string.

Definition View (m : model) : string :=
  if timeLeft m <=? 0 then menuView m else countdownView m.

Fixpoint run (m : model) (evs : list Msg) : option (model * list effect) :=
  match evs with
  | [] => Some (m, [])
  | msg :: evs' =>
      match Update m msg with
      | None => None
      | Some (m', c, fx) =>
          if is_Quit c then Some (m', fx)
          else match run m' evs' with
               | None => None
               | Some (m'', fx') => Some (m'', fx ++ fx')
               end
      end
  end.

End Model.

End Legacy.

(** ** Relating the two copies, and counting what a command arms *)

Section Relating.

Context {T : Toolkit}.

(** The state of the older copy that a state of the newer one stands for. *)
Definition forget (m : model) : Legacy.model :=
  Legacy.mkModel (progress m) (timeLeft m) (timeType m) (cursor m)
                 (choice m) (pause m).

End Relating.

Definition is_sound (e : effect) : bool :=
  match e with PlayNotification => true | notify _ _ => false end.

(** The outward calls without the sound. *)
Definition silent (fx : list effect) : list effect :=
  filter (fun e => negb (is_sound e)) fx.

(** How many ticks a command arms. *)
Fixpoint armed (c : Cmd) : nat :=
  match c with
  | tickCmd => 1
  | Batch cs =>
      (fix go (l : list Cmd) : nat :=
         match l with
         | [] => 0
         | x :: r => armed x + go r
         end) cs
  | _ => 0
  end%nat.

(** With [z] seconds of [total] left the fraction is not yet 1. *)
Definition not_done (total z : Z) : bool :=
  negb (PrimFloat.eqb (fraction total (z + 1)) 1).

(** The nine keys [Update] knows. *)
Definition knownKeys : list string :=
  ["ctrl+c"; "q"; "enter"; "down"; "j"; " "; "esc"; "up"; "k"]%string.

(** A list of calls made of completion pairs only: the sound, then the
    notification that names one of the two phases, with an empty message. *)
Fixpoint completion_pairs (fx : list effect) : Prop :=
  match fx with
  | [] => True
  | PlayNotification :: notify title message :: fx' =>
      (title = "Time to work is left"%string \/
       title = "Time to rest is left"%string) /\
      message = EmptyString /\ completion_pairs fx'
  | _ => False
  end.

(** * Properties *)

Arguments GoInt.wrap : simpl never.
Arguments GoInt.add : simpl never.
Arguments GoInt.sub : simpl never.
Arguments GoInt.mul : simpl never.
Arguments GoInt.float64 : simpl never.
Arguments Update : simpl never.

Module GoIntFacts.

Lemma wrap_id (z : Z) : GoInt.in_range z -> GoInt.wrap z = z.
Proof.
  unfold GoInt.in_range, GoInt.min_int, GoInt.max_int, GoInt.wrap.
  intros Hz. rewrite Z.mod_small by lia. lia.
Qed.

Lemma wrap_range (z : Z) : GoInt.in_range (GoInt.wrap z).
Proof.
  unfold GoInt.in_range, GoInt.min_int, GoInt.max_int, GoInt.wrap.
  pose proof (Z.mod_pos_bound (z + 9223372036854775808) 18446744073709551616).
  lia.
Qed.

Lemma sub_id (a b : Z) : GoInt.in_range (a - b) -> GoInt.sub a b = a - b.
Proof. apply wrap_id. Qed.

Lemma add_id (a b : Z) : GoInt.in_range (a + b) -> GoInt.add a b = a + b.
Proof. apply wrap_id. Qed.

Lemma mul_id (a b : Z) : GoInt.in_range (a * b) -> GoInt.mul a b = a * b.
Proof. apply wrap_id. Qed.

End GoIntFacts.

Section KeyFacts.

Context {T : Toolkit}.

(** What each key does, as equations of [Update]. *)

Lemma Update_enter (now : Z) (m : model) :
  Update now m (KeyMsg "enter") =
  match GoInt.index choices (cursor m) with
  | None => None
  | Some c =>
      if String.eqb c WORKTIME then
        Some (mkModel (progress m) work WORKTIME (cursor m) (choice m) (pause m)
                      (now + GoInt.mul work 1000000000), nilCmd, [])
      else if String.eqb c RESTTIME then
        Some (mkModel (progress m) rest RESTTIME (cursor m) (choice m) (pause m)
                      (now + GoInt.mul rest 1000000000), nilCmd, [])
      else Some (m, nilCmd, [])
  end.
Proof. reflexivity. Qed.

Lemma Update_esc (now : Z) (m : model) :
  Update now m (KeyMsg "esc") =
  Some (mkModel (progress m) 0 (timeType m) (cursor m) (choice m) false (endTime m),
        nilCmd, []).
Proof. reflexivity. Qed.

Lemma Update_down (now : Z) (m : model) (k : string) :
  key_in k ["down"; "j"]%string = true ->
  Update now m (KeyMsg k) =
  Some (set_cursor m (if GoInt.len choices <=? GoInt.add (cursor m) 1
                      then 0 else GoInt.add (cursor m) 1), nilCmd, []).
Proof.
  unfold key_in, existsb. rewrite !orb_true_iff, !String.eqb_eq.
  intros [-> | [-> | Hk]]; try discriminate Hk; unfold Update; simpl;
    destruct (_ <=? _); reflexivity.
Qed.

Lemma Update_up (now : Z) (m : model) (k : string) :
  key_in k ["up"; "k"]%string = true ->
  Update now m (KeyMsg k) =
  Some (set_cursor m (if GoInt.sub (cursor m) 1 <? 0
                      then GoInt.sub (GoInt.len choices) 1
                      else GoInt.sub (cursor m) 1), nilCmd, []).
Proof.
  unfold key_in, existsb. rewrite !orb_true_iff, !String.eqb_eq.
  intros [-> | [-> | Hk]]; try discriminate Hk; unfold Update; simpl;
    destruct (_ <? _); reflexivity.
Qed.

Lemma cursorKey_cases (k : string) :
  cursorKey k = true ->
  key_in k ["down"; "j"]%string = true \/ key_in k ["up"; "k"]%string = true.
Proof.
  unfold cursorKey, key_in, existsb. rewrite !orb_true_iff. tauto.
Qed.

End KeyFacts.

Section Keys.

Context {T : Toolkit}.

Lemma index_choices_0 : GoInt.index choices 0 = Some WORKTIME.
Proof. reflexivity. Qed.

Lemma index_choices_1 : GoInt.index choices 1 = Some RESTTIME.
Proof. reflexivity. Qed.

(** What Select does at either position of the cursor, whatever the rest
    of the state is. *)
Lemma select_effect (now : Z) (m : model) :
  (cursor m = 0 ->
   exists m', Update now m (KeyMsg "enter") = Some (m', nilCmd, []) /\
              timeType m' = WORKTIME /\ totalSeconds m' = 1500 /\
              timeLeft m' = 1500 /\ pause m' = pause m /\
              cursor m' = cursor m /\ progress m' = progress m) /\
  (cursor m = 1 ->
   exists m', Update now m (KeyMsg "enter") = Some (m', nilCmd, []) /\
              timeType m' = RESTTIME /\ totalSeconds m' = 300 /\
              timeLeft m' = 300 /\ pause m' = pause m /\
              cursor m' = cursor m /\ progress m' = progress m).
Proof.
  split; intros Hc; rewrite Update_enter, Hc.
  - rewrite index_choices_0. simpl. eexists. split; [reflexivity|].
    simpl. repeat split; auto.
  - rewrite index_choices_1. simpl. eexists. split; [reflexivity|].
    simpl. repeat split; auto.
Qed.

(** C1 (amended): in every Idle state the Select event (enter) with the
    cursor on Work sets the phase to Work and the total and remaining
    seconds to 1500, with the cursor on Rest it sets the phase to Rest and
    both to 300; in either case the paused flag keeps the value it had. *)
Theorem select_when_idle (now : Z) (m : model) :
  Idle m ->
  (cursor m = 0 ->
   exists m', Update now m (KeyMsg "enter") = Some (m', nilCmd, []) /\
              timeType m' = WORKTIME /\ totalSeconds m' = 1500 /\
              timeLeft m' = 1500 /\ pause m' = pause m) /\
  (cursor m = 1 ->
   exists m', Update now m (KeyMsg "enter") = Some (m', nilCmd, []) /\
              timeType m' = RESTTIME /\ totalSeconds m' = 300 /\
              timeLeft m' = 300 /\ pause m' = pause m).
Proof.
  intros _. destruct (select_effect now m) as [Hw Hr].
  split; intros Hc; [destruct (Hw Hc) as (m' & H) | destruct (Hr Hc) as (m' & H)];
    exists m'; intuition.
Qed.

(** C10: while a countdown is running, the Select event still takes
    effect: the remaining and total seconds become the full duration of
    the choice under the cursor, the phase becomes that choice, and the
    paused flag keeps its value. *)
Theorem select_during_countdown (now : Z) (m : model) :
  0 < timeLeft m ->
  (cursor m = 0 ->
   exists m', Update now m (KeyMsg "enter") = Some (m', nilCmd, []) /\
              timeType m' = WORKTIME /\ totalSeconds m' = lookup mapping WORKTIME /\
              timeLeft m' = lookup mapping WORKTIME /\ pause m' = pause m) /\
  (cursor m = 1 ->
   exists m', Update now m (KeyMsg "enter") = Some (m', nilCmd, []) /\
              timeType m' = RESTTIME /\ totalSeconds m' = lookup mapping RESTTIME /\
              timeLeft m' = lookup mapping RESTTIME /\ pause m' = pause m).
Proof.
  intros _. destruct (select_effect now m) as [Hw Hr].
  split; intros Hc; [destruct (Hw Hc) as (m' & H) | destruct (Hr Hc) as (m' & H)];
    exists m'; change (lookup mapping WORKTIME) with 1500;
    change (lookup mapping RESTTIME) with 300; intuition.
Qed.

(** C6: a Tick in a paused state returns the state as it was, field for
    field, asks only for the next tick, and makes no outward call. *)
Theorem tick_while_paused (now : Z) (m : model) :
  pause m = true ->
  Update now m tickMsg = Some (m, tickCmd, []).
Proof. intros Hp. unfold Update. rewrite Hp. reflexivity. Qed.

Lemma menuView_text (m : model) :
  (cursor m = 0 ->
   menuView m = ("Choose time type:" ++ Fmt.nl ++
                 "[•] work (25m)" ++ Fmt.nl ++
                 "[ ] rest (05m)" ++ Fmt.nl ++ Fmt.nl ++
                 "(press q to quit)" ++ Fmt.nl)%string) /\
  (cursor m = 1 ->
   menuView m = ("Choose time type:" ++ Fmt.nl ++
                 "[ ] work (25m)" ++ Fmt.nl ++
                 "[•] rest (05m)" ++ Fmt.nl ++ Fmt.nl ++
                 "(press q to quit)" ++ Fmt.nl)%string).
Proof.
  unfold menuView. split; intros ->; vm_compute; reflexivity.
Qed.

(** C8: the Reset event (esc), in any state, sets the remaining seconds
    to 0 and the paused flag to false, and the view of the resulting state
    is the menu. *)
Theorem reset_returns_to_menu (now : Z) (m : model) :
  exists m', Update now m (KeyMsg "esc") = Some (m', nilCmd, []) /\
             timeLeft m' = 0 /\ pause m' = false /\
             View m' = menuView m'.
Proof.
  rewrite Update_esc. eexists. split; [reflexivity|].
  simpl. repeat split.
Qed.

(** C9: a Resize event of width [w] sets the width of the progress bar
    to [w - padding*2 - 4], then clamps it to at most 80; a terminal of
    width 100 gives a bar of width 80. *)
Theorem resize_sets_width (now : Z) (m : model) (w h : Z) :
  GoInt.min_int + 8 <= w <= GoInt.max_int ->
  exists m', Update now m (WindowSizeMsg w h) = Some (m', nilCmd, []) /\
             Width (progress m') = Z.min (w - padding * 2 - 4) maxWidth /\
             Width (progress m') <= 80 /\
             (w = 100 -> Width (progress m') = 80) /\
             timeLeft m' = timeLeft m /\ timeType m' = timeType m /\
             cursor m' = cursor m /\ pause m' = pause m.
Proof.
  intros Hw. unfold Update.
  change (GoInt.mul padding 2) with 4.
  unfold GoInt.min_int, GoInt.max_int in Hw.
  rewrite (GoIntFacts.sub_id w 4)
    by (unfold GoInt.in_range, GoInt.min_int, GoInt.max_int; lia).
  rewrite (GoIntFacts.sub_id (w - 4) 4)
    by (unfold GoInt.in_range, GoInt.min_int, GoInt.max_int; lia).
  unfold padding, maxWidth. simpl.
  destruct (Z.ltb_spec 80 (w - 4 - 4)) as [Hgt | Hle];
    eexists; (split; [reflexivity|]); simpl; repeat split; lia.
Qed.

Lemma cursor_step (now : Z) (m : model) (k : string) :
  0 <= cursor m < GoInt.len choices ->
  cursorKey k = true ->
  exists m', Update now m (KeyMsg k) = Some (m', nilCmd, []) /\
             0 <= cursor m' < GoInt.len choices.
Proof.
  change (GoInt.len choices) with 2. intros Hc Hk.
  destruct (cursorKey_cases k Hk) as [Hd | Hu].
  - rewrite (Update_down now m k Hd). eexists. split; [reflexivity|].
    change (GoInt.len choices) with 2.
    rewrite GoIntFacts.add_id
      by (unfold GoInt.in_range, GoInt.min_int, GoInt.max_int; lia).
    simpl. destruct (Z.leb_spec 2 (cursor m + 1)); lia.
  - rewrite (Update_up now m k Hu). eexists. split; [reflexivity|].
    change (GoInt.sub (GoInt.len choices) 1) with 1.
    rewrite GoIntFacts.sub_id
      by (unfold GoInt.in_range, GoInt.min_int, GoInt.max_int; lia).
    simpl. destruct (Z.ltb_spec (cursor m - 1) 0); lia.
Qed.

Lemma cursor_run (evs : list (Z * Msg)) :
  Forall cursorEvent evs ->
  forall m : model,
    0 <= cursor m < GoInt.len choices ->
    exists m', run m evs = Some (m', []) /\
               0 <= cursor m' < GoInt.len choices.
Proof.
  induction 1 as [| [now msg] evs (k & Hmsg & Hk) _ IH]; intros m Hc.
  - exists m. split; [reflexivity | exact Hc].
  - simpl in Hmsg. subst msg.
    destruct (cursor_step now m k Hc Hk) as (m1 & Hupd & Hc1).
    destruct (IH m1 Hc1) as (m2 & Hrun & Hc2).
    exists m2. split; [| exact Hc2].
    simpl. rewrite Hupd. simpl. rewrite Hrun. reflexivity.
Qed.

(** C7: from a state whose cursor is in [0, numChoices), numChoices = 2,
    every sequence of CursorDown and CursorUp events leaves the cursor in
    [0, numChoices); CursorUp at 0 wraps to numChoices - 1 and CursorDown
    at numChoices - 1 wraps to 0. *)
Theorem cursor_stays_in_range (m : model) (evs : list (Z * Msg)) :
  0 <= cursor m < GoInt.len choices ->
  Forall cursorEvent evs ->
  GoInt.len choices = 2 /\
  (exists m', run m evs = Some (m', []) /\
              0 <= cursor m' < GoInt.len choices) /\
  (forall now k, key_in k ["up"; "k"]%string = true -> cursor m = 0 ->
     exists m', Update now m (KeyMsg k) = Some (m', nilCmd, []) /\
                cursor m' = GoInt.len choices - 1) /\
  (forall now k, key_in k ["down"; "j"]%string = true ->
     cursor m = GoInt.len choices - 1 ->
     exists m', Update now m (KeyMsg k) = Some (m', nilCmd, []) /\
                cursor m' = 0).
Proof.
  intros Hc Hevs. split; [reflexivity|]. split; [|split].
  - apply cursor_run; assumption.
  - intros now k Hk H0. rewrite (Update_up now m k Hk), H0.
    eexists. split; reflexivity.
  - intros now k Hk H1. rewrite (Update_down now m k Hk), H1.
    eexists. split; reflexivity.
Qed.

End Keys.

(** ** What every run preserves *)

Section Invariant.

Context {T : Toolkit}.

Lemma totalSeconds_pos (m : model) :
  timeType m = WORKTIME \/ timeType m = RESTTIME -> 0 < totalSeconds m.
Proof. unfold totalSeconds. intros [-> | ->]; reflexivity. Qed.

Lemma Inv_NewModel : Inv 0 NewModel.
Proof.
  unfold Inv. change (GoInt.len choices) with 2.
  change (totalSeconds NewModel) with 1500.
  change (timeLeft NewModel) with 0. change (cursor NewModel) with 0.
  split; [lia | split; [left; reflexivity | lia]].
Qed.

Lemma Inv_weaken (n n' : Z) (m : model) : n <= n' -> Inv n m -> Inv n' m.
Proof. unfold Inv. intuition lia. Qed.

Ltac small_int :=
  unfold GoInt.in_range, GoInt.min_int, GoInt.max_int in *; lia.

(** Closes an [Inv] goal about a state written out field by field. *)
Ltac inv_fields :=
  unfold Inv, totalSeconds in *; cbn [timeLeft timeType cursor set_cursor
    set_timeLeft set_timeType set_endTime set_pause set_progress set_Width] in *;
  change (GoInt.len choices) with 2 in *;
  change (lookup mapping WORKTIME) with 1500 in *;
  change (lookup mapping RESTTIME) with 300 in *;
  change work with 1500 in *; change rest with 300 in *;
  repeat split; try tauto; try lia.

Lemma Inv_key (n now : Z) (m : model) (k : string) :
  0 <= n -> Inv n m ->
  exists m' c fx, Update now m (KeyMsg k) = Some (m', c, fx) /\ Inv (n + 1) m'.
Proof.
  intros Hn HI. pose proof HI as (Hc & Ht & Hl).
  pose proof (totalSeconds_pos m Ht) as Hpos.
  change (GoInt.len choices) with 2 in Hc.
  unfold Update.
  destruct (key_in k ["ctrl+c"; "q"]%string).
  { do 3 eexists. split; [reflexivity | inv_fields]. }
  destruct (key_in k ["enter"]%string).
  { assert (Hcur : cursor m = 0 \/ cursor m = 1) by lia.
    destruct Hcur as [E | E]; rewrite E;
      [rewrite index_choices_0 | rewrite index_choices_1];
      cbn [String.eqb Ascii.eqb Bool.eqb WORKTIME RESTTIME];
      do 3 eexists; (split; [reflexivity | inv_fields]). }
  destruct (key_in k ["down"; "j"]%string).
  { rewrite GoIntFacts.add_id by small_int.
    change (GoInt.len choices) with 2. cbn [cursor set_cursor].
    destruct (Z.leb_spec 2 (cursor m + 1));
      do 3 eexists; (split; [reflexivity | inv_fields]). }
  destruct (key_in k [" "]%string).
  { do 3 eexists. split; [reflexivity | inv_fields]. }
  destruct (key_in k ["esc"]%string).
  { do 3 eexists. split; [reflexivity | inv_fields]. }
  destruct (key_in k ["up"; "k"]%string).
  { rewrite GoIntFacts.sub_id by small_int.
    change (GoInt.sub (GoInt.len choices) 1) with 1. cbn [cursor set_cursor].
    destruct (Z.ltb_spec (cursor m - 1) 0);
      do 3 eexists; (split; [reflexivity | inv_fields]). }
  do 3 eexists. split; [reflexivity | inv_fields].
Qed.

Lemma Inv_tick (n now : Z) (m : model) :
  0 <= n < GoInt.max_int -> Inv n m ->
  exists m' c fx, Update now m tickMsg = Some (m', c, fx) /\ Inv (n + 1) m'.
Proof.
  intros Hn HI. pose proof HI as (Hc & Ht & Hl).
  assert (Hdiff : totalSeconds m <= 1500)
    by (unfold totalSeconds; destruct Ht as [-> | ->]; vm_compute; discriminate).
  unfold Update. destruct (pause m).
  { do 3 eexists. split; [reflexivity | inv_fields]. }
  cbv zeta. unfold SetPercent.
  do 3 eexists. split; [reflexivity|].
  unfold Inv, totalSeconds in *.
  cbn [timeLeft timeType cursor set_timeLeft set_progress].
  rewrite GoIntFacts.sub_id by small_int.
  repeat split; try tauto; lia.
Qed.

Lemma Inv_step (n now : Z) (m : model) (msg : Msg) :
  0 <= n < GoInt.max_int -> Inv n m ->
  exists m' c fx, Update now m msg = Some (m', c, fx) /\ Inv (n + 1) m'.
Proof.
  intros Hn HI. destruct msg as [k | w h | | id tag |].
  - apply Inv_key; [lia | exact HI].
  - unfold Update. cbv zeta.
    destruct (maxWidth <? _);
      do 3 eexists; (split; [reflexivity | inv_fields]).
  - apply Inv_tick; assumption.
  - unfold Update, progress_Update.
    destruct (frameStep id tag (progress m)) as [a again].
    do 3 eexists. split; [reflexivity | inv_fields].
  - unfold Update. do 3 eexists. split; [reflexivity|].
    apply Inv_weaken with n; [lia | exact HI].
Qed.

Lemma Inv_run (evs : list (Z * Msg)) :
  forall (n : Z) (m : model),
    0 <= n -> n + Z.of_nat (List.length evs) <= GoInt.max_int -> Inv n m ->
    exists m' fx, run m evs = Some (m', fx) /\
                  Inv (n + Z.of_nat (List.length evs)) m'.
Proof.
  induction evs as [| [now msg] evs IH]; intros n m Hn Hlen HI.
  - exists m, []. split; [reflexivity|].
    apply Inv_weaken with n; [simpl; lia | exact HI].
  - cbn [List.length] in *. rewrite Nat2Z.inj_succ in *.
    destruct (Inv_step n now m msg) as (m1 & c & fx & Hupd & HI1);
      [lia | exact HI |].
    cbn [run]. rewrite Hupd. destruct (is_Quit c).
    + exists m1, fx. split; [reflexivity|].
      apply Inv_weaken with (n + 1); [lia | exact HI1].
    + destruct (IH (n + 1) m1) as (m2 & fx2 & Hrun & HI2); [lia | lia | exact HI1 |].
      rewrite Hrun. exists m2, (fx ++ fx2). split; [reflexivity|].
      replace (n + Z.succ (Z.of_nat (List.length evs)))
        with (n + 1 + Z.of_nat (List.length evs)) by lia.
      exact HI2.
Qed.

(** C2 (amended): every run of at most 2^63 - 1 events from the initial
    state ends, without a panic, in a state whose remaining seconds are at
    most the total seconds of its phase and at least minus the number of
    events; they need not be non-negative. *)
Theorem remaining_at_most_total (evs : list (Z * Msg)) :
  Z.of_nat (List.length evs) <= GoInt.max_int ->
  exists m fx, run NewModel evs = Some (m, fx) /\
               timeLeft m <= totalSeconds m /\
               - Z.of_nat (List.length evs) <= timeLeft m.
Proof.
  intros Hlen.
  destruct (Inv_run evs 0 NewModel) as (m & fx & Hrun & _ & _ & Hl);
    [lia | lia | apply Inv_NewModel |].
  exists m, fx. split; [exact Hrun | lia].
Qed.

End Invariant.

(** ** The progress fraction *)

Module FloatFacts.

Lemma clamp_inside (p : float) :
  inside_unit p = true -> GoMath.Max 0 (GoMath.Min 1 p) = p.
Proof.
  unfold inside_unit. rewrite !andb_true_iff, !negb_true_iff.
  intros [[[[[[Hnan Hinf] Hninf] Hz] Hpos] Hneg] Hle].
  assert (Hmin : GoMath.Min 1 p = p).
  { unfold GoMath.Min.
    change (PrimFloat.eqb 1 PrimFloat.neg_infinity) with false.
    change (PrimFloat.is_nan 1) with false.
    change (PrimFloat.eqb 1 0) with false.
    rewrite Hninf, Hnan, Hle. reflexivity. }
  rewrite Hmin. unfold GoMath.Max.
  change (PrimFloat.eqb 0 PrimFloat.infinity) with false.
  change (PrimFloat.is_nan 0) with false.
  change (PrimFloat.eqb 0 0) with true.
  rewrite Hinf, Hnan, Hz, Hneg. reflexivity.
Qed.

Lemma In_below (n : nat) (z : Z) : 0 <= z < Z.of_nat n -> In z (below n).
Proof.
  intros Hz. unfold below. apply in_map_iff. exists (Z.to_nat z).
  split; [lia|]. apply in_seq. lia.
Qed.

Lemma work_ticks : forallb (tick_ok work) (below 1500) = true.
Proof. vm_compute. reflexivity. Qed.

Lemma rest_ticks : forallb (tick_ok rest) (below 300) = true.
Proof. vm_compute. reflexivity. Qed.

Lemma tick_ok_all (total z : Z) :
  total = work \/ total = rest -> 0 <= z < total -> tick_ok total z = true.
Proof.
  intros [-> | ->] Hz.
  - apply (proj1 (forallb_forall _ _) work_ticks). apply In_below.
    change work with 1500 in Hz. lia.
  - apply (proj1 (forallb_forall _ _) rest_ticks). apply In_below.
    change rest with 300 in Hz. lia.
Qed.

Lemma fraction_zero (total : Z) :
  total = work \/ total = rest -> fraction total 0 = 1%float.
Proof. intros [-> | ->]; vm_compute; reflexivity. Qed.

End FloatFacts.

(** ** Ticks *)

Section Ticks.

Context {T : Toolkit}.

Lemma totalSeconds_cases (m : model) :
  0 < totalSeconds m -> timeType m = WORKTIME \/ timeType m = RESTTIME.
Proof.
  unfold totalSeconds, mapping, lookup.
  destruct (String.eqb_spec (timeType m) WORKTIME) as [E | _]; [left; exact E|].
  destruct (String.eqb_spec (timeType m) RESTTIME) as [E | _]; [right; exact E|].
  lia.
Qed.

Lemma totalSeconds_choice (m : model) :
  timeType m = WORKTIME \/ timeType m = RESTTIME ->
  totalSeconds m = work \/ totalSeconds m = rest.
Proof. unfold totalSeconds. intros [-> | ->]; [left | right]; reflexivity. Qed.

(** An unpaused tick, written out: the remaining time goes down by one
    (wrapping), the target of the bar is the clamped fraction, the next tick
    and the next frame are requested. *)
Lemma Update_tick (now : Z) (m : model) :
  pause m = false ->
  timeType m = WORKTIME \/ timeType m = RESTTIME ->
  Update now m tickMsg =
  Some (mkModel
          (mkProgress (Width (progress m))
             (GoMath.Max 0 (GoMath.Min 1
                (fraction (totalSeconds m) (GoInt.sub (timeLeft m) 1))))
             (retarget (anim (progress m))))
          (GoInt.sub (timeLeft m) 1) (timeType m) (cursor m) (choice m)
          false (endTime m),
        Batch [tickCmd; nextFrame], completion_calls m).
Proof.
  intros Hp Ht. unfold Update. rewrite Hp. cbv zeta.
  unfold SetPercent, completion_calls, set_progress, set_timeLeft, totalSeconds.
  cbn [progress timeLeft timeType cursor choice pause endTime].
  rewrite Hp. destruct Ht as [-> | ->]; reflexivity.
Qed.

(** One tick of a running countdown. *)
Lemma tick_once (now : Z) (m : model) :
  pause m = false -> 0 < timeLeft m <= totalSeconds m ->
  exists m',
    Update now m tickMsg = Some (m', Batch [tickCmd; nextFrame], []) /\
    timeLeft m' = timeLeft m - 1 /\
    timeType m' = timeType m /\
    pause m' = false /\
    cursor m' = cursor m /\
    Percent (progress m') = fraction (totalSeconds m) (timeLeft m - 1) /\
    PrimFloat.ltb (fraction (totalSeconds m) (timeLeft m))
                  (Percent (progress m')) = true /\
    PrimFloat.leb (Percent (progress m')) 1 = true.
Proof.
  intros Hp Hl.
  assert (Ht : timeType m = WORKTIME \/ timeType m = RESTTIME)
    by (apply totalSeconds_cases; lia).
  pose proof (totalSeconds_choice m Ht) as Htot.
  assert (Hbig : totalSeconds m <= 1500)
    by (destruct Htot as [-> | ->]; vm_compute; discriminate).
  rewrite (Update_tick now m Hp Ht).
  assert (Hsub : GoInt.sub (timeLeft m) 1 = timeLeft m - 1).
  { apply GoIntFacts.sub_id.
    unfold GoInt.in_range, GoInt.min_int, GoInt.max_int. lia. }
  rewrite Hsub.
  assert (Hno : completion_calls m = []).
  { unfold completion_calls.
    destruct (Z.eqb_spec (timeLeft m) 0) as [E | _]; [lia|].
    rewrite andb_false_r. reflexivity. }
  rewrite Hno.
  pose proof (FloatFacts.tick_ok_all (totalSeconds m) (timeLeft m - 1) Htot) as Hok.
  unfold tick_ok in Hok. rewrite !andb_true_iff in Hok.
  destruct Hok as [[Hin Hlt] Hle1]; [lia|].
  replace (timeLeft m - 1 + 1) with (timeLeft m) in Hlt by lia.
  eexists. split; [reflexivity|].
  cbn [timeLeft timeType pause cursor progress Percent targetPercent].
  rewrite (FloatFacts.clamp_inside _ Hin).
  repeat split; assumption.
Qed.

(** C4: in a state with a running countdown and the pause off, a Tick
    takes exactly one second off the remaining time and sets the target of
    the progress bar to 1 - remaining/total; over successive such Ticks
    that target strictly increases, stays at most 1, and is 1 when the
    remaining time reaches 0. *)
Theorem tick_counts_down (now : Z) (m : model) :
  pause m = false -> 0 < timeLeft m <= totalSeconds m ->
  exists m',
    Update now m tickMsg = Some (m', Batch [tickCmd; nextFrame], []) /\
    timeLeft m' = timeLeft m - 1 /\
    totalSeconds m' = totalSeconds m /\
    Percent (progress m') =
      (1 - GoInt.float64 (timeLeft m') / GoInt.float64 (totalSeconds m'))%float /\
    PrimFloat.leb (Percent (progress m')) 1 = true /\
    (timeLeft m' = 0 -> Percent (progress m') = 1%float) /\
    (forall now', 0 < timeLeft m' ->
       exists m'',
         Update now' m' tickMsg = Some (m'', Batch [tickCmd; nextFrame], []) /\
         timeLeft m'' = timeLeft m' - 1 /\
         PrimFloat.ltb (Percent (progress m')) (Percent (progress m'')) = true /\
         PrimFloat.leb (Percent (progress m'')) 1 = true).
Proof.
  intros Hp Hl.
  destruct (tick_once now m Hp Hl)
    as (m' & Hupd & Hl' & Ht' & Hp' & _ & Hfr & _ & Hle).
  assert (Htot : totalSeconds m' = totalSeconds m)
    by (unfold totalSeconds; rewrite Ht'; reflexivity).
  exists m'. split; [exact Hupd|]. split; [exact Hl'|]. split; [exact Htot|].
  split; [rewrite Hfr, Htot, Hl'; reflexivity|].
  split; [exact Hle|]. split.
  - intros H0. rewrite Hfr, <- Hl', H0.
    apply FloatFacts.fraction_zero, totalSeconds_choice, totalSeconds_cases. lia.
  - intros now' Hpos.
    destruct (tick_once now' m' Hp') as (m'' & Hupd2 & Hl2 & _ & _ & _ & _ & Hlt & Hle2);
      [rewrite Htot; lia|].
    exists m''. split; [exact Hupd2|]. split; [exact Hl2|]. split; [|exact Hle2].
    rewrite Hfr, <- Hl', <- Htot. exact Hlt.
Qed.

End Ticks.

(** ** Completion of a countdown *)

Section Completion.

Context {T : Toolkit}.

(** Ticks of a running countdown make no outward call. *)
Lemma ticks_run_down (evs : list (Z * Msg)) :
  Forall isTick evs ->
  forall m : model,
    pause m = false ->
    Z.of_nat (List.length evs) <= timeLeft m <= totalSeconds m ->
    0 < totalSeconds m ->
    exists m', run m evs = Some (m', []) /\
               timeLeft m' = timeLeft m - Z.of_nat (List.length evs) /\
               timeType m' = timeType m /\ pause m' = false /\
               (evs <> [] ->
                Percent (progress m') = fraction (totalSeconds m) (timeLeft m')).
Proof.
  induction 1 as [| [now msg] evs Hmsg _ IH]; intros m Hp Hl Hpos.
  - exists m. cbn [List.length run]. repeat split; try lia; try assumption.
    intros Hne. contradiction Hne. reflexivity.
  - unfold isTick in Hmsg. simpl in Hmsg. subst msg.
    cbn [List.length] in Hl. rewrite Nat2Z.inj_succ in Hl.
    destruct (tick_once now m Hp) as (m1 & Hupd & Hl1 & Ht1 & Hp1 & _ & Hfr & _);
      [lia|].
    assert (Htot : totalSeconds m1 = totalSeconds m)
      by (unfold totalSeconds; rewrite Ht1; reflexivity).
    destruct (IH m1 Hp1) as (m2 & Hrun & Hl2 & Ht2 & Hp2 & Hfr2);
      [rewrite Htot; lia | rewrite Htot; lia |].
    exists m2. cbn [run]. rewrite Hupd. cbn [is_Quit]. rewrite Hrun.
    split; [reflexivity|]. cbn [List.length]. rewrite Nat2Z.inj_succ.
    split; [lia|]. split; [congruence|]. split; [exact Hp2|].
    intros _. destruct evs as [| e evs'].
    + cbn [run] in Hrun. injection Hrun as <-. rewrite Hfr, Hl1. reflexivity.
    + rewrite <- Htot. apply Hfr2. discriminate.
Qed.

(** The tick after the countdown has reached zero makes the two calls. *)
Lemma tick_at_zero (now : Z) (m : model) :
  pause m = false -> timeLeft m = 0 ->
  timeType m = WORKTIME \/ timeType m = RESTTIME ->
  Percent (progress m) = 1%float ->
  exists m', Update now m tickMsg =
               Some (m', Batch [tickCmd; nextFrame], completed m) /\
             timeLeft m' = -1 /\ timeType m' = timeType m /\ pause m' = false.
Proof.
  intros Hp H0 Ht H1. rewrite (Update_tick now m Hp Ht).
  unfold completion_calls. rewrite H1, H0.
  eexists. split; [reflexivity|]. repeat split.
Qed.

(** Ticks below zero make no call, as long as the counter does not wrap. *)
Lemma ticks_below_zero (evs : list (Z * Msg)) :
  Forall isTick evs ->
  forall m : model,
    pause m = false -> timeLeft m < 0 ->
    timeType m = WORKTIME \/ timeType m = RESTTIME ->
    GoInt.min_int <= timeLeft m - Z.of_nat (List.length evs) ->
    exists m', run m evs = Some (m', []) /\
               timeLeft m' = timeLeft m - Z.of_nat (List.length evs).
Proof.
  induction 1 as [| [now msg] evs Hmsg _ IH]; intros m Hp Hneg Ht Hmin.
  - exists m. cbn [List.length run]. split; [reflexivity | lia].
  - unfold isTick in Hmsg. simpl in Hmsg. subst msg.
    cbn [List.length] in *. rewrite Nat2Z.inj_succ in *.
    assert (Hsub : GoInt.sub (timeLeft m) 1 = timeLeft m - 1).
    { apply GoIntFacts.sub_id.
      unfold GoInt.in_range, GoInt.min_int, GoInt.max_int in *. lia. }
    assert (Hno : completion_calls m = []).
    { unfold completion_calls.
      destruct (Z.eqb_spec (timeLeft m) 0) as [E | _]; [lia|].
      rewrite andb_false_r. reflexivity. }
    cbn [run]. rewrite (Update_tick now m Hp Ht), Hno, Hsub. cbn [is_Quit].
    match goal with |- context [run ?m1 evs] =>
      destruct (IH m1) as (m2 & Hrun & Hl2);
        [reflexivity | cbn [timeLeft]; lia | exact Ht | cbn [timeLeft]; lia |];
        rewrite Hrun; cbn [timeLeft] in Hl2
    end.
    exists m2. split; [reflexivity | lia].
Qed.

Lemma tick_not_quit (now : Z) (m m' : model) (c : Cmd) (fx : list effect) :
  Update now m tickMsg = Some (m', c, fx) -> is_Quit c = false.
Proof.
  unfold Update. destruct (pause m); cbv zeta; unfold SetPercent;
    intros H; inversion H; reflexivity.
Qed.

(** A run of ticks followed by more events. *)
Lemma run_ticks_app (evs1 evs2 : list (Z * Msg)) :
  Forall isTick evs1 ->
  forall (m m1 : model) (fx1 : list effect),
    run m evs1 = Some (m1, fx1) ->
    run m (evs1 ++ evs2) =
    match run m1 evs2 with
    | None => None
    | Some (m2, fx2) => Some (m2, fx1 ++ fx2)
    end.
Proof.
  induction 1 as [| [now msg] evs Hmsg _ IH]; intros m m1 fx1 Hrun.
  - cbn [run] in Hrun. inversion Hrun; subst. cbn [app].
    destruct (run m1 evs2) as [[m2 fx2] |]; reflexivity.
  - unfold isTick in Hmsg. simpl in Hmsg. subst msg.
    cbn [run app] in *.
    destruct (Update now m tickMsg) as [[[m' c] fx] |] eqn:Hupd; [|discriminate].
    rewrite (tick_not_quit _ _ _ _ _ Hupd) in *.
    destruct (run m' evs) as [[ma fa] |] eqn:Hra; [|discriminate].
    inversion Hrun; subst.
    rewrite (IH m' m1 fa Hra).
    destruct (run m1 evs2) as [[m2 fx2] |]; [|reflexivity].
    rewrite app_assoc. reflexivity.
Qed.

(** X13: A countdown that is left to run, from the moment it is selected with
    the pause off: the ticks that bring it to zero make no call, the tick
    after them makes the two calls, and the ticks after that make none. *)
Lemma countdown_notifies_once (down next after : list (Z * Msg)) (m : model) :
  Forall isTick down -> Forall isTick next -> Forall isTick after ->
  pause m = false -> 0 < totalSeconds m ->
  timeLeft m = totalSeconds m ->
  Z.of_nat (List.length down) = totalSeconds m ->
  List.length next = 1%nat ->
  Z.of_nat (List.length after) < GoInt.max_int ->
  calls (run m down) = Some [] /\
  calls (run m (down ++ next)) = Some (completed m) /\
  calls (run m (down ++ next ++ after)) = Some (completed m).
Proof.
  intros Hd Hn Ha Hp Hpos Hfull Hlen Hone Hafter.
  pose proof (totalSeconds_cases m Hpos) as Ht.
  destruct (ticks_run_down down Hd m Hp) as (m0 & Hrun0 & Hl0 & Ht0 & Hp0 & Hfr0);
    [lia | exact Hpos |].
  assert (Hne : down <> []) by (intros ->; simpl in Hlen; lia).
  assert (Hz : timeLeft m0 = 0) by lia.
  assert (H1 : Percent (progress m0) = 1%float).
  { rewrite (Hfr0 Hne), Hz.
    apply FloatFacts.fraction_zero, totalSeconds_choice, Ht. }
  destruct next as [| [now msg] [| ? ?]]; try discriminate Hone.
  inversion Hn as [| ? ? Hmsg _]; subst. unfold isTick in Hmsg.
  simpl in Hmsg. subst msg.
  destruct (tick_at_zero now m0 Hp0 Hz) as (m1 & Hupd & Hl1 & Ht1 & Hp1);
    [congruence | exact H1 |].
  assert (Hc : completed m0 = completed m) by (unfold completed; rewrite Ht0; reflexivity).
  destruct (ticks_below_zero after Ha m1 Hp1) as (m2 & Hrun2 & _);
    [lia | congruence
     | unfold GoInt.min_int, GoInt.max_int in *; lia |].
  split; [rewrite Hrun0; reflexivity|]. split.
  - rewrite (run_ticks_app down _ Hd m m0 [] Hrun0).
    cbn [run]. rewrite Hupd. cbn [is_Quit app calls option_map snd].
    rewrite app_nil_r, Hc. reflexivity.
  - rewrite (run_ticks_app down _ Hd m m0 [] Hrun0).
    cbn [app run]. rewrite Hupd. cbn [is_Quit]. rewrite Hrun2.
    cbn [app calls option_map snd]. rewrite app_nil_r, Hc. reflexivity.
Qed.

(** C3 (failing runs): a Rest countdown started from the menu makes no
    call during its 300 ticks and ends with 0 seconds left; the tick after
    that makes the two calls; a Reset followed by a tick, with the timer
    still Idle and no Select in between, makes both calls a second time.
    Likewise a tick, a Reset and a tick from the initial state make the
    calls although no countdown ever ran. *)
Theorem notification_repeats_after_reset :
  calls (run NewModel restCountdown) = Some [] /\
  option_map (fun r => timeLeft (fst r)) (run NewModel restCountdown) = Some 0 /\
  calls (run NewModel (restCountdown ++ ticks 1)) =
    Some [PlayNotification; notify "Time to rest is left" ""] /\
  calls (run NewModel (restCountdown ++ ticks 1 ++
                       [(0, KeyMsg "esc"); (0, tickMsg)])) =
    Some [PlayNotification; notify "Time to rest is left" "";
          PlayNotification; notify "Time to rest is left" ""] /\
  calls (run NewModel [(0, tickMsg); (0, KeyMsg "esc"); (0, tickMsg)]) =
    Some [PlayNotification; notify "Time to work is left" ""].
Proof. repeat split; vm_compute; reflexivity. Qed.

End Completion.

(** ** The two layouts of the view *)

Section Layouts.

Context {T : Toolkit}.

Lemma menuView_head (m : model) : exists s, menuView m = String "C" s.
Proof.
  unfold menuView, choices. cbn [menuRows append]. eexists. reflexivity.
Qed.

Lemma countdownView_head (m : model) :
  exists s, countdownView m = String "010" s.
Proof.
  unfold countdownView, Fmt.nl. cbn [append]. eexists. reflexivity.
Qed.

Lemma layouts_differ (m : model) : menuView m <> countdownView m.
Proof.
  destruct (menuView_head m) as [s1 H1].
  destruct (countdownView_head m) as [s2 H2].
  rewrite H1, H2. discriminate.
Qed.

Lemma clock_below_an_hour (m : model) :
  0 < timeLeft m < 3600 ->
  minutesLeft m = timeLeft m / 60 /\ secondsLeft m = timeLeft m mod 60.
Proof.
  intros Hl. unfold secondsLeft, minutesLeft, GoInt.quo, GoInt.rem.
  rewrite Z.rem_small by lia.
  rewrite Z.quot_div_nonneg by lia.
  pose proof (Z.div_pos (timeLeft m) 60).
  pose proof (Z.div_le_upper_bound (timeLeft m) 60 60).
  pose proof (Z.div_mod (timeLeft m) 60).
  pose proof (Z.mod_pos_bound (timeLeft m) 60).
  rewrite (GoIntFacts.wrap_id (timeLeft m / 60))
    by (unfold GoInt.in_range, GoInt.min_int, GoInt.max_int; lia).
  rewrite GoIntFacts.mul_id
    by (unfold GoInt.in_range, GoInt.min_int, GoInt.max_int; lia).
  rewrite GoIntFacts.sub_id
    by (unfold GoInt.in_range, GoInt.min_int, GoInt.max_int; lia).
  split; lia.
Qed.

(** C5 (amended): the view is the menu (both choices, the cursor marked,
    the durations in minutes, a quit hint) exactly when the remaining
    seconds are at most 0, and otherwise the countdown, which shows the
    remaining time in minutes and seconds (for a time below one hour) and a
    glyph that tells whether the timer is paused; the two layouts never
    coincide. *)
Theorem view_layouts (m : model) :
  (View m = menuView m <-> timeLeft m <= 0) /\
  (View m = countdownView m <-> 0 < timeLeft m) /\
  menuView m <> countdownView m /\
  (cursor m = 0 ->
   menuView m = ("Choose time type:" ++ Fmt.nl ++
                 "[•] work (25m)" ++ Fmt.nl ++
                 "[ ] rest (05m)" ++ Fmt.nl ++ Fmt.nl ++
                 "(press q to quit)" ++ Fmt.nl)%string) /\
  (cursor m = 1 ->
   menuView m = ("Choose time type:" ++ Fmt.nl ++
                 "[ ] work (25m)" ++ Fmt.nl ++
                 "[•] rest (05m)" ++ Fmt.nl ++ Fmt.nl ++
                 "(press q to quit)" ++ Fmt.nl)%string) /\
  (0 < timeLeft m < 3600 ->
   countdownView m =
     (Fmt.nl ++ "  " ++ timeType m ++ Fmt.nl ++ Fmt.nl ++
      "  " ++ progressView (progress m) ++ Fmt.nl ++ Fmt.nl ++
      "  " ++ (Fmt.d02 (timeLeft m / 60) ++ "m" ++
               Fmt.d02 (timeLeft m mod 60) ++ "s -> " ++
               formatClock (endTime m) ++ " " ++
               (if pause m then "⏸️" else "▶️")) ++
      "  " ++ helpStyle "Press 'q' key to quit")%string).
Proof.
  pose proof (layouts_differ m) as Hd.
  split; [|split; [|split; [exact Hd|]]].
  - unfold View. destruct (Z.leb_spec (timeLeft m) 0) as [H | H].
    + split; [intros _; exact H | reflexivity].
    + split; [intros E; symmetry in E; contradiction | lia].
  - unfold View. destruct (Z.leb_spec (timeLeft m) 0) as [H | H].
    + split; [intros E; contradiction | lia].
    + split; [intros _; exact H | reflexivity].
  - destruct (menuView_text m) as [H0 H1].
    split; [exact H0 | split; [exact H1|]].
    intros Hl. destruct (clock_below_an_hour m Hl) as [Hmin Hsec].
    unfold countdownView. rewrite Hmin, Hsec. reflexivity.
Qed.

End Layouts.

(** * The properties on concrete runs *)

(** Select in the menu, cursor on Work. *)
Lemma select_when_idle_witness :
  Idle (@NewModel plainToolkit) /\
  exists m', Update 0 (@NewModel plainToolkit) (KeyMsg "enter") = Some (m', nilCmd, []) /\
             timeType m' = WORKTIME /\ totalSeconds m' = 1500 /\
             timeLeft m' = 1500 /\ pause m' = pause (@NewModel plainToolkit).
Proof.
  assert (H : Idle (@NewModel plainToolkit)) by (unfold Idle; simpl; lia).
  split; [exact H|].
  exact (proj1 (select_when_idle 0 NewModel H) eq_refl).
Defined.

(** The menu with the pause flag set is what one press of the space bar
    gives; Select there starts the countdown and leaves the flag set. *)
Lemma select_leaves_pause_set :
  run (@NewModel plainToolkit) [(0, KeyMsg " ")] = Some (pausedMenu, []) /\
  Idle pausedMenu /\ cursor pausedMenu = 0 /\
  exists m', Update 0 pausedMenu (KeyMsg "enter") = Some (m', nilCmd, []) /\
             timeLeft m' = 1500 /\ pause m' = true /\ pause m' <> false.
Proof.
  split; [reflexivity|]. split; [unfold Idle; simpl; lia|]. split; [reflexivity|].
  eexists. split; [reflexivity|]. simpl. repeat split. discriminate.
Qed.

(** One tick from the initial state leaves -1 second. *)
Lemma tick_goes_below_zero :
  exists m, run (@NewModel plainToolkit) [(0, tickMsg)] = Some (m, []) /\
            timeLeft m = -1 /\ ~ 0 <= timeLeft m.
Proof.
  eexists. split; [vm_compute; reflexivity|]. simpl. split; [reflexivity | lia].
Qed.

Lemma remaining_at_most_total_witness :
  Z.of_nat (List.length [(0, tickMsg)]) <= GoInt.max_int /\
  exists (m : @model plainToolkit) fx,
    run NewModel [(0, tickMsg)] = Some (m, fx) /\
    timeLeft m <= totalSeconds m /\
    - Z.of_nat (List.length [(0, tickMsg)]) <= timeLeft m.
Proof.
  assert (H : Z.of_nat (List.length [(0, tickMsg)]) <= GoInt.max_int)
    by (unfold GoInt.max_int; simpl; lia).
  split; [exact H|].
  exact (@remaining_at_most_total plainToolkit [(0, tickMsg)] H).
Defined.

(** A countdown at 1500 of 1500 seconds, pause off: one tick. *)
Lemma tick_counts_down_witness :
  pause workRunning = false /\ 0 < timeLeft workRunning <= totalSeconds workRunning /\
  exists m', Update 0 workRunning tickMsg = Some (m', Batch [tickCmd; nextFrame], []) /\
             timeLeft m' = 1499.
Proof.
  assert (Hp : pause workRunning = false) by reflexivity.
  assert (Hl : 0 < timeLeft workRunning <= totalSeconds workRunning)
    by (split; vm_compute; easy).
  split; [exact Hp|]. split; [exact Hl|].
  destruct (tick_counts_down 0 workRunning Hp Hl) as (m' & Hupd & Hl' & _).
  exists m'. split; [exact Hupd | exact Hl'].
Defined.

(** One tick from the initial state: the menu is shown with -1 second left. *)
Lemma menu_shown_below_zero :
  exists m, run (@NewModel plainToolkit) [(0, tickMsg)] = Some (m, []) /\
            timeLeft m <> 0 /\
            View m = menuView m /\ View m <> countdownView m.
Proof.
  eexists. split; [vm_compute; reflexivity|].
  split; [simpl; lia|]. split; [reflexivity|].
  unfold View. simpl. apply layouts_differ.
Qed.

Lemma view_layouts_witness :
  View workRunning = countdownView workRunning /\
  countdownView workRunning =
    (Fmt.nl ++ "  work" ++ Fmt.nl ++ Fmt.nl ++ "  " ++ Fmt.nl ++ Fmt.nl ++
     "  25m00s ->  ▶️  Press 'q' key to quit")%string.
Proof.
  destruct (view_layouts workRunning) as (_ & Hc & _ & _ & _ & Htxt).
  split; [apply Hc; vm_compute; reflexivity|].
  rewrite Htxt by (split; vm_compute; reflexivity). vm_compute. reflexivity.
Defined.

Lemma tick_while_paused_witness :
  pause pausedMenu = true /\
  Update 0 pausedMenu tickMsg = Some (pausedMenu, tickCmd, []).
Proof.
  split; [reflexivity|]. exact (tick_while_paused 0 pausedMenu eq_refl).
Defined.

Lemma cursor_stays_in_range_witness :
  exists m', run (@NewModel plainToolkit)
               [(0, KeyMsg "up"); (0, KeyMsg "down"); (0, KeyMsg "j")] = Some (m', []) /\
             0 <= cursor m' < GoInt.len choices.
Proof.
  assert (Hc : 0 <= cursor (@NewModel plainToolkit) < GoInt.len choices)
    by (change (GoInt.len choices) with 2; simpl; lia).
  assert (He : Forall cursorEvent
                 [(0, KeyMsg "up"); (0, KeyMsg "down"); (0, KeyMsg "j")])
    by (repeat constructor; eexists; split; reflexivity).
  exact (proj1 (proj2 (cursor_stays_in_range NewModel _ Hc He))).
Defined.

(** A terminal 100 columns wide. *)
Lemma resize_sets_width_witness :
  GoInt.min_int + 8 <= 100 <= GoInt.max_int /\
  exists m', Update 0 (@NewModel plainToolkit) (WindowSizeMsg 100 24) = Some (m', nilCmd, []) /\
             Width (progress m') = 80.
Proof.
  assert (Hw : GoInt.min_int + 8 <= 100 <= GoInt.max_int)
    by (unfold GoInt.min_int, GoInt.max_int; lia).
  split; [exact Hw|].
  destruct (resize_sets_width 0 (@NewModel plainToolkit) 100 24 Hw)
    as (m' & Hupd & _ & _ & H100 & _).
  exists m'. split; [exact Hupd | exact (H100 eq_refl)].
Defined.

(** Select with 1500 seconds still to go, cursor on Work. *)
Lemma select_during_countdown_witness :
  0 < timeLeft workRunning /\
  exists m', Update 0 workRunning (KeyMsg "enter") = Some (m', nilCmd, []) /\
             timeType m' = WORKTIME /\ totalSeconds m' = lookup mapping WORKTIME /\
             timeLeft m' = lookup mapping WORKTIME /\ pause m' = pause workRunning.
Proof.
  assert (H : 0 < timeLeft workRunning) by (vm_compute; reflexivity).
  split; [exact H|].
  exact (proj1 (select_during_countdown 0 workRunning H) eq_refl).
Defined.

(** * Further properties of [Update] *)

Lemma key_in_In (k : string) (ks : list string) :
  key_in k ks = true <-> In k ks.
Proof.
  unfold key_in. rewrite existsb_exists. split.
  - intros (x & Hin & Heq). apply String.eqb_eq in Heq. subst x. exact Hin.
  - intros Hin. exists k. split; [exact Hin | apply String.eqb_refl].
Qed.

(** Splits [Update] on a key into the seven arms of its switch. *)
Ltac key_arms k :=
  unfold Update;
  destruct (key_in k ["ctrl+c"; "q"]%string) eqn:Hquit;
  [| destruct (key_in k ["enter"]%string) eqn:Henter;
     [| destruct (key_in k ["down"; "j"]%string) eqn:Hdown;
        [| destruct (key_in k [" "]%string) eqn:Hspace;
           [| destruct (key_in k ["esc"]%string) eqn:Hesc;
              [| destruct (key_in k ["up"; "k"]%string) eqn:Hup ]]]]].

(** Names the key of an arm: turns [key_in k [..] = true] into equations. *)
Ltac name_key :=
  repeat match goal with
  | H : key_in _ _ = true |- _ =>
      apply key_in_In in H; simpl in H;
      repeat (destruct H as [H | H]; [symmetry in H | ]); try contradiction
  end.

Ltac got H := cbv zeta in H; inversion H; subst; clear H.

Section Dispatch.

Context {T : Toolkit}.

(** The outward calls of one step: none, or the completion pair, and then
    the step is an unpaused tick that found 0 seconds left and the bar's
    target at 1. *)
Lemma Update_calls (now : Z) (m m' : model) (msg : Msg) (c : Cmd) (fx : list effect) :
  Update now m msg = Some (m', c, fx) ->
  fx = [] \/
  (msg = tickMsg /\ pause m = false /\ timeLeft m = 0 /\
   PrimFloat.eqb (Percent (progress m)) 1 = true /\ fx = completed m).
Proof.
  intros H. destruct msg as [k | w h | | id tag |].
  - revert H. key_arms k; intros H.
    + got H. left; reflexivity.
    + destruct (GoInt.index choices (cursor m)) as [ch |]; [|discriminate].
      destruct (String.eqb ch WORKTIME); [got H; left; reflexivity|].
      destruct (String.eqb ch RESTTIME); got H; left; reflexivity.
    + got H. left; reflexivity.
    + got H. left; reflexivity.
    + got H. left; reflexivity.
    + got H. left; reflexivity.
    + got H. left; reflexivity.
  - unfold Update in H. got H. left; reflexivity.
  - unfold Update in H. destruct (pause m) eqn:Hp; [got H; left; reflexivity|].
    cbv zeta in H. unfold SetPercent in H. inversion H; subst; clear H.
    destruct (PrimFloat.eqb (Percent (progress m)) 1) eqn:H1;
      [| left; reflexivity].
    destruct (Z.eqb_spec (timeLeft m) 0) as [H0 | H0]; [| left; reflexivity].
    right. repeat split; assumption.
  - unfold Update, progress_Update in H.
    destruct (frameStep id tag (progress m)). got H. left; reflexivity.
  - unfold Update in H. got H. left; reflexivity.
Qed.

(** X1: A completed countdown is announced by an unpaused tick and by nothing
    else: whenever a step makes an outward call, the message is a tick, the
    pause is off, 0 seconds are left and the bar's target is 1; the calls are
    then the sound followed by the notification that names the phase. *)
Theorem calls_only_at_completion
  (now : Z) (m m' : model) (msg : Msg) (c : Cmd) (fx : list effect) :
  Update now m msg = Some (m', c, fx) -> fx <> [] ->
  msg = tickMsg /\ pause m = false /\ timeLeft m = 0 /\
  PrimFloat.eqb (Percent (progress m)) 1 = true /\
  fx = [PlayNotification;
        notify ("Time to " ++ timeType m ++ " is left") EmptyString].
Proof.
  intros H Hne. destruct (Update_calls now m m' msg c fx H) as [E | E].
  - contradiction.
  - exact E.
Qed.

(** X2: [Update] asks the runtime to quit exactly on the keys ctrl+c and q, and
    then hands the model back as it was, with no outward call. *)
Theorem quit_exactly_on_quit_keys
  (now : Z) (m m' : model) (msg : Msg) (c : Cmd) (fx : list effect) :
  Update now m msg = Some (m', c, fx) ->
  (c = Quit <-> msg = KeyMsg "ctrl+c" \/ msg = KeyMsg "q") /\
  (c = Quit -> m' = m /\ fx = []).
Proof.
  intros H. destruct msg as [k | w h | | id tag |].
  - revert H. key_arms k; intros H.
    + got H. name_key; subst; (split; [split; intros _; auto | auto]).
    + assert (Hk : ~ (KeyMsg k = KeyMsg "ctrl+c" \/ KeyMsg k = KeyMsg "q"))
        by (intros [E | E]; inversion E; subst; discriminate Hquit).
      destruct (GoInt.index choices (cursor m)) as [ch |]; [|discriminate].
      destruct (String.eqb ch WORKTIME);
        [| destruct (String.eqb ch RESTTIME)]; got H;
        (split; [split; [discriminate | intros E; contradiction] | discriminate]).
    + assert (Hk : ~ (KeyMsg k = KeyMsg "ctrl+c" \/ KeyMsg k = KeyMsg "q"))
        by (intros [E | E]; inversion E; subst; discriminate Hquit).
      got H. split; [split; [discriminate | intros E; contradiction] | discriminate].
    + assert (Hk : ~ (KeyMsg k = KeyMsg "ctrl+c" \/ KeyMsg k = KeyMsg "q"))
        by (intros [E | E]; inversion E; subst; discriminate Hquit).
      got H. split; [split; [discriminate | intros E; contradiction] | discriminate].
    + assert (Hk : ~ (KeyMsg k = KeyMsg "ctrl+c" \/ KeyMsg k = KeyMsg "q"))
        by (intros [E | E]; inversion E; subst; discriminate Hquit).
      got H. split; [split; [discriminate | intros E; contradiction] | discriminate].
    + assert (Hk : ~ (KeyMsg k = KeyMsg "ctrl+c" \/ KeyMsg k = KeyMsg "q"))
        by (intros [E | E]; inversion E; subst; discriminate Hquit).
      got H. split; [split; [discriminate | intros E; contradiction] | discriminate].
    + assert (Hk : ~ (KeyMsg k = KeyMsg "ctrl+c" \/ KeyMsg k = KeyMsg "q"))
        by (intros [E | E]; inversion E; subst; discriminate Hquit).
      got H. split; [split; [discriminate | intros E; contradiction] | discriminate].
  - unfold Update in H. got H.
    split; [split; [discriminate | intros [E | E]; discriminate E] | discriminate].
  - unfold Update in H. destruct (pause m).
    + got H. split; [split; [discriminate | intros [E | E]; discriminate E] | discriminate].
    + cbv zeta in H. unfold SetPercent in H. inversion H; subst; clear H.
      split; [split; [discriminate | intros [E | E]; discriminate E] | discriminate].
  - unfold Update, progress_Update in H.
    destruct (frameStep id tag (progress m)) as [a again]. got H.
    split; [split; [destruct again; discriminate | intros [E | E]; discriminate E]
           | destruct again; discriminate].
  - unfold Update in H. got H.
    split; [split; [discriminate | intros [E | E]; discriminate E] | discriminate].
Qed.



Ltac parts :=
  split; [| split; [| split; [| split; [| split; [| split; [| split]]]]]].

(** X4: Which message may change which part of the state. The remaining time
    changes only on enter, esc and an unpaused tick; the phase only on
    enter; the cursor only on a cursor key; the pause only on space and esc;
    the end time only on enter and space; the bar's width only on a resize
    and its target only on an unpaused tick; [choice] is never written. *)
Theorem update_frame
  (now : Z) (m m' : model) (msg : Msg) (c : Cmd) (fx : list effect) :
  Update now m msg = Some (m', c, fx) ->
  (timeLeft m' <> timeLeft m ->
   msg = KeyMsg "enter" \/ msg = KeyMsg "esc" \/ (msg = tickMsg /\ pause m = false)) /\
  (timeType m' <> timeType m -> msg = KeyMsg "enter") /\
  (cursor m' <> cursor m -> exists k, msg = KeyMsg k /\ cursorKey k = true) /\
  (pause m' <> pause m -> msg = KeyMsg " " \/ msg = KeyMsg "esc") /\
  (endTime m' <> endTime m -> msg = KeyMsg "enter" \/ msg = KeyMsg " ") /\
  (Width (progress m') <> Width (progress m) -> exists w h, msg = WindowSizeMsg w h) /\
  (targetPercent (progress m') <> targetPercent (progress m) ->
   msg = tickMsg /\ pause m = false) /\
  choice m' = choice m.
Proof.
  intros H.
  assert (Hsame : forall (A : Type) (x : A) (P : Prop), (x <> x -> P))
    by (intros A x P Hne; contradiction Hne; reflexivity).
  destruct msg as [k | w h | | id tag |].
  - revert H. key_arms k; intros H.
    + got H. parts; try apply Hsame; try reflexivity.
    + name_key. subst k.
      destruct (GoInt.index choices (cursor m)) as [ch |]; [|discriminate].
      destruct (String.eqb ch WORKTIME);
        [| destruct (String.eqb ch RESTTIME)]; got H;
        parts; try apply Hsame; try reflexivity; intros _; auto.
    + name_key; subst k; cbv zeta in H;
        destruct (GoInt.len choices <=? _); got H;
        parts; try apply Hsame; try reflexivity; intros _;
        eexists; split; reflexivity.
    + name_key. subst k. got H.
      parts; try apply Hsame; try reflexivity; intros _; auto.
    + name_key. subst k. got H.
      parts; try apply Hsame; try reflexivity; intros _; auto.
    + name_key; subst k; cbv zeta in H;
        destruct (_ <? 0); got H;
        parts; try apply Hsame; try reflexivity; intros _;
        eexists; split; reflexivity.
    + got H. parts; try apply Hsame; try reflexivity.
  - unfold Update in H. cbv zeta in H.
    destruct (maxWidth <? _); got H;
      parts; try apply Hsame; try reflexivity; intros _; eexists; eexists; reflexivity.
  - unfold Update in H. destruct (pause m) eqn:Hp.
    + got H. parts; try apply Hsame; try reflexivity.
      intros Hne. congruence.
    + cbv zeta in H. unfold SetPercent in H. inversion H; subst; clear H.
      parts; try apply Hsame; try reflexivity; intros Hne; auto.
      cbn [pause set_progress set_timeLeft] in Hne. congruence.
  - unfold Update, progress_Update in H.
    destruct (frameStep id tag (progress m)) as [a again]. got H.
    parts; try apply Hsame; try reflexivity.
  - unfold Update in H. got H. parts; try apply Hsame; try reflexivity.
Qed.

End Dispatch.

(** * Further properties of runs *)

Section Runs.

Context {T : Toolkit}.

Lemma completion_pairs_app (a b : list effect) :
  completion_pairs a -> completion_pairs b -> completion_pairs (a ++ b).
Proof.
  remember (List.length a) as n eqn:Hn. revert a Hn.
  induction n as [n IH] using (well_founded_induction Wf_nat.lt_wf).
  intros a Hn Ha Hb. destruct a as [| e1 a]; [exact Hb|].
  destruct e1 as [| t1 s1]; [| contradiction].
  destruct a as [| e2 a]; [contradiction|].
  destruct e2 as [| title message]; [contradiction|].
  cbn [completion_pairs app] in *.
  destruct Ha as (Ht & Hm & Ha). split; [exact Ht|]. split; [exact Hm|].
  apply (IH (List.length a)); [subst n; simpl; lia | reflexivity | exact Ha | exact Hb].
Qed.

Lemma step_pairs (n now : Z) (m m' : model) (msg : Msg) (c : Cmd) (fx : list effect) :
  Inv n m -> Update now m msg = Some (m', c, fx) -> completion_pairs fx.
Proof.
  intros (_ & Ht & _) H.
  destruct (Update_calls now m m' msg c fx H) as [-> | (_ & _ & _ & _ & ->)].
  - exact I.
  - unfold completed. destruct Ht as [-> | ->]; cbn; auto.
Qed.

Lemma pairs_run (evs : list (Z * Msg)) :
  forall (n : Z) (m : model),
    0 <= n -> n + Z.of_nat (List.length evs) <= GoInt.max_int -> Inv n m ->
    exists m' fx, run m evs = Some (m', fx) /\ completion_pairs fx.
Proof.
  induction evs as [| [now msg] evs IH]; intros n m Hn Hlen HI.
  - exists m, []. split; [reflexivity | exact I].
  - cbn [List.length] in Hlen. rewrite Nat2Z.inj_succ in Hlen.
    destruct (Inv_step n now m msg) as (m1 & c & fx & Hupd & HI1);
      [lia | exact HI |].
    pose proof (step_pairs n now m m1 msg c fx HI Hupd) as Hfx.
    cbn [run]. rewrite Hupd. destruct (is_Quit c).
    + exists m1, fx. split; [reflexivity | exact Hfx].
    + destruct (IH (n + 1) m1) as (m2 & fx2 & Hrun & Hfx2); [lia | lia | exact HI1 |].
      rewrite Hrun. exists m2, (fx ++ fx2). split; [reflexivity|].
      apply completion_pairs_app; assumption.
Qed.

(** X5: Over a whole run from the initial state the outward calls come in
    pairs only: each sound is followed at once by a notification, its title
    is "Time to work is left" or "Time to rest is left", its message is
    empty, and there is no other call. *)
Theorem run_calls_are_completion_pairs (evs : list (Z * Msg)) :
  Z.of_nat (List.length evs) <= GoInt.max_int ->
  exists m fx, run NewModel evs = Some (m, fx) /\ completion_pairs fx.
Proof.
  intros Hlen. apply (pairs_run evs 0 NewModel); [lia | lia | apply Inv_NewModel].
Qed.

Lemma tick_while_paused_step (now : Z) (m : model) :
  pause m = true -> Update now m tickMsg = Some (m, tickCmd, []).
Proof. intros Hp. unfold Update. rewrite Hp. reflexivity. Qed.

Lemma paused_ticks (evs : list (Z * Msg)) (m : model) :
  Forall isTick evs -> pause m = true -> run m evs = Some (m, []).
Proof.
  intros Hall Hp. induction Hall as [| [now msg] evs Hmsg _ IH].
  - reflexivity.
  - unfold isTick in Hmsg. simpl in Hmsg. subst msg.
    cbn [run]. rewrite (tick_while_paused_step now m Hp). cbn [is_Quit].
    rewrite IH. reflexivity.
Qed.

(** X6: Pausing freezes the countdown: space, any number of ticks, space again
    gives back the state it started from, with no outward call; only the end
    time is new, the clock reading at the second space plus the remaining
    time. *)
Theorem pause_freezes_countdown
  (n1 n2 : Z) (evs : list (Z * Msg)) (m : model) :
  pause m = false -> Forall isTick evs ->
  run m ((n1, KeyMsg " ") :: evs ++ [(n2, KeyMsg " ")]) =
  Some (set_endTime m (deadline n2 m), []).
Proof.
  intros Hp Hall. cbn [run].
  change (Update n1 m (KeyMsg " "))
    with (Some (set_pause (set_endTime m (deadline n1 m)) (negb (pause m)),
                nilCmd, @nil effect)).
  cbn [is_Quit]. rewrite Hp. cbn [negb].
  set (m1 := set_pause (set_endTime m (deadline n1 m)) true).
  assert (Hp1 : pause m1 = true) by reflexivity.
  rewrite (run_ticks_app evs [(n2, KeyMsg " ")] Hall m1 m1 []
             (paused_ticks evs m1 Hall Hp1)).
  subst m1. destruct m as [p tl tt cur ch pa et]. cbn in Hp. subst pa.
  reflexivity.
Qed.

End Runs.

(** * Cursor, clock, commands and widths *)

Section Details.

Context {T : Toolkit}.

Lemma set_cursor_same (m : model) : set_cursor m (cursor m) = m.
Proof. destruct m; reflexivity. Qed.

Lemma cursor_key_step (now : Z) (m : model) (k : string) :
  0 <= cursor m < GoInt.len choices -> cursorKey k = true ->
  Update now m (KeyMsg k) = Some (set_cursor m (1 - cursor m), nilCmd, []).
Proof.
  change (GoInt.len choices) with 2. intros Hc Hk.
  assert (Hcur : cursor m = 0 \/ cursor m = 1) by lia.
  destruct (cursorKey_cases k Hk) as [Hd | Hu].
  - rewrite (Update_down now m k Hd).
    destruct Hcur as [E | E]; rewrite E; reflexivity.
  - rewrite (Update_up now m k Hu).
    destruct Hcur as [E | E]; rewrite E; reflexivity.
Qed.

(** X7: With two choices every cursor key, down or up alike, moves the cursor
    to the other choice and touches nothing else; two cursor keys in a row,
    in any combination, give back the state they started from. *)
Theorem cursor_keys_toggle (n1 n2 : Z) (m : model) (k1 k2 : string) :
  0 <= cursor m < GoInt.len choices ->
  cursorKey k1 = true -> cursorKey k2 = true ->
  Update n1 m (KeyMsg k1) = Some (set_cursor m (1 - cursor m), nilCmd, []) /\
  run m [(n1, KeyMsg k1); (n2, KeyMsg k2)] = Some (m, []).
Proof.
  intros Hc H1 H2.
  pose proof (cursor_key_step n1 m k1 Hc H1) as Hs1.
  split; [exact Hs1|].
  cbn [run]. rewrite Hs1. cbn [is_Quit].
  rewrite (cursor_key_step n2 _ k2);
    [| change (GoInt.len choices) with 2 in *; cbn [cursor set_cursor]; lia
     | exact H2].
  cbn [is_Quit app set_cursor cursor timeLeft timeType progress choice pause endTime].
  replace (1 - (1 - cursor m)) with (cursor m) by lia.
  destruct m; reflexivity.
Qed.

(** X8: The minutes and seconds of the countdown line always add up to the
    remaining time: the minutes are those within the hour (0 to 59) and the
    seconds carry everything else, so they stay below 60 exactly when less
    than an hour is left. *)
Theorem clock_adds_up (m : model) :
  0 <= timeLeft m <= GoInt.max_int ->
  0 <= minutesLeft m < 60 /\
  0 <= secondsLeft m /\
  minutesLeft m * 60 + secondsLeft m = timeLeft m /\
  (secondsLeft m < 60 <-> timeLeft m < 3600).
Proof.
  intros Hl. unfold GoInt.max_int in Hl.
  unfold secondsLeft, minutesLeft, GoInt.quo, GoInt.rem.
  rewrite Z.rem_mod_nonneg by lia.
  pose proof (Z.mod_pos_bound (timeLeft m) 3600) as Hr.
  pose proof (Z.div_mod (timeLeft m) 3600) as Hdm.
  assert (Hh : 0 <= timeLeft m / 3600) by (apply Z.div_pos; lia).
  set (r := timeLeft m mod 3600) in *.
  rewrite Z.quot_div_nonneg by lia.
  pose proof (Z.div_mod r 60) as Hdm2.
  pose proof (Z.mod_pos_bound r 60) as Hr2.
  assert (Hq : 0 <= r / 60 < 60)
    by (split; [apply Z.div_pos; lia | apply Z.div_lt_upper_bound; lia]).
  rewrite (GoIntFacts.wrap_id (r / 60))
    by (unfold GoInt.in_range, GoInt.min_int, GoInt.max_int; lia).
  rewrite GoIntFacts.mul_id
    by (unfold GoInt.in_range, GoInt.min_int, GoInt.max_int; lia).
  rewrite GoIntFacts.sub_id
    by (unfold GoInt.in_range, GoInt.min_int, GoInt.max_int; lia).
  repeat split; lia.
Qed.

Lemma length_append (s1 s2 : string) :
  String.length (s1 ++ s2) = (String.length s1 + String.length s2)%nat.
Proof. induction s1 as [| a s1 IH]; simpl; [reflexivity | rewrite IH; reflexivity]. Qed.

Lemma d02_two_digits : forallb (fun z => (String.length (Fmt.d02 z) =? 2)%nat) (below 100) = true.
Proof. vm_compute. reflexivity. Qed.

(** X9: With less than an hour left the countdown line shows the time as two
    characters of minutes, "m", two characters of seconds, "s". *)
Theorem clock_text_is_MMmSSs (m : model) :
  0 < timeLeft m < 3600 ->
  String.length (Fmt.d02 (minutesLeft m)) = 2%nat /\
  String.length (Fmt.d02 (secondsLeft m)) = 2%nat /\
  String.length (Fmt.d02 (minutesLeft m) ++ "m" ++
                 Fmt.d02 (secondsLeft m) ++ "s") = 6%nat.
Proof.
  intros Hl. destruct (clock_below_an_hour m Hl) as [Hmin Hsec].
  pose proof (Z.mod_pos_bound (timeLeft m) 60) as Hs.
  assert (Hq : 0 <= timeLeft m / 60 < 60)
    by (split; [apply Z.div_pos; lia | apply Z.div_lt_upper_bound; lia]).
  assert (Hlen : forall z, 0 <= z < 100 -> String.length (Fmt.d02 z) = 2%nat).
  { intros z Hz. apply Nat.eqb_eq.
    apply (proj1 (forallb_forall _ _) d02_two_digits).
    apply FloatFacts.In_below. simpl. lia. }
  rewrite Hmin, Hsec.
  assert (H1 := Hlen (timeLeft m / 60)). assert (H2 := Hlen (timeLeft m mod 60)).
  split; [apply H1; lia|]. split; [apply H2; lia|].
  rewrite !length_append, H1, H2 by lia. reflexivity.
Qed.

(** X10: The tick is re-armed exactly once by every tick handled, paused or not,
    and by no other message: there is never more than one tick in flight. *)
Theorem tick_rearmed_exactly_once
  (now : Z) (m m' : model) (msg : Msg) (c : Cmd) (fx : list effect) :
  Update now m msg = Some (m', c, fx) ->
  armed (Init m) = 1%nat /\
  armed c = match msg with tickMsg => 1%nat | _ => 0%nat end.
Proof.
  intros H. split; [reflexivity|].
  destruct msg as [k | w h | | id tag |].
  - revert H. key_arms k; intros H; try (got H; reflexivity).
    destruct (GoInt.index choices (cursor m)) as [ch |]; [|discriminate].
    destruct (String.eqb ch WORKTIME);
      [| destruct (String.eqb ch RESTTIME)]; got H; reflexivity.
  - unfold Update in H. got H. reflexivity.
  - unfold Update in H. destruct (pause m); [got H; reflexivity|].
    cbv zeta in H. unfold SetPercent in H. inversion H; subst; clear H.
    reflexivity.
  - unfold Update, progress_Update in H.
    destruct (frameStep id tag (progress m)) as [a again]. got H.
    destruct again; reflexivity.
  - unfold Update in H. got H. reflexivity.
Qed.

(** X11: A resize never leaves the bar wider than 80, whatever width arrives; it
    changes nothing but the bar's width; a second resize to the same width
    changes nothing at all. There is no lower clamp: a terminal narrower
    than 8 columns gives the bar a negative width. *)
Theorem resize_bounds (now now' : Z) (m : model) (w h : Z) :
  exists m', Update now m (WindowSizeMsg w h) = Some (m', nilCmd, []) /\
             Width (progress m') <= maxWidth /\
             m' = set_Width m (Width (progress m')) /\
             Update now' m' (WindowSizeMsg w h) = Some (m', nilCmd, []) /\
             (GoInt.min_int + 8 <= w <= GoInt.max_int ->
              (Width (progress m') < 0 <-> w < 8)).
Proof.
  unfold Update. cbv zeta. cbn [progress set_Width set_progress Width].
  set (x := GoInt.sub (GoInt.sub w (GoInt.mul padding 2)) 4).
  assert (Hx : GoInt.min_int + 8 <= w <= GoInt.max_int -> x = w - 8).
  { intros Hw. unfold x. change (GoInt.mul padding 2) with 4.
    unfold GoInt.min_int, GoInt.max_int in Hw.
    rewrite (GoIntFacts.sub_id w 4)
      by (unfold GoInt.in_range, GoInt.min_int, GoInt.max_int; lia).
    rewrite GoIntFacts.sub_id
      by (unfold GoInt.in_range, GoInt.min_int, GoInt.max_int; lia).
    lia. }
  unfold maxWidth in *.
  destruct (Z.ltb_spec 80 x) as [Hgt | Hle].
  - eexists. split; [reflexivity|].
    cbn [progress set_Width set_progress Width targetPercent anim
         timeLeft timeType cursor choice pause endTime].
    split; [lia|]. split; [reflexivity|].
    destruct (Z.ltb_spec 80 x) as [_ | Hc]; [| lia].
    split; [reflexivity|]. intros Hw. specialize (Hx Hw). lia.
  - eexists. split; [reflexivity|].
    cbn [progress set_Width set_progress Width targetPercent anim
         timeLeft timeType cursor choice pause endTime].
    split; [lia|]. split; [reflexivity|].
    destruct (Z.ltb_spec 80 x) as [Hc | _]; [lia|].
    split; [reflexivity|]. intros Hw. specialize (Hx Hw). lia.
Qed.

(** X12: Whenever the end time is written, by enter or by space, it is the clock
    reading plus the remaining time of the new state, in nanoseconds. *)
Theorem end_time_is_now_plus_remaining
  (now : Z) (m m' : model) (msg : Msg) (c : Cmd) (fx : list effect) :
  Update now m msg = Some (m', c, fx) ->
  msg = KeyMsg "enter" \/ msg = KeyMsg " " ->
  - 9223372036 <= timeLeft m <= 9223372036 ->
  endTime m' = now + timeLeft m' * 1000000000.
Proof.
  intros H Hmsg Hl. destruct Hmsg as [-> | ->].
  - rewrite Update_enter in H.
    destruct (GoInt.index choices (cursor m)) as [ch |] eqn:Hi; [|discriminate].
    assert (Hch : ch = WORKTIME \/ ch = RESTTIME).
    { unfold GoInt.index in Hi. destruct (_ || _); [discriminate|].
      destruct (Z.to_nat (cursor m)) as [| [| n]]; simpl in Hi.
      - injection Hi as <-. left; reflexivity.
      - injection Hi as <-. right; reflexivity.
      - destruct n; discriminate. }
    destruct Hch as [-> | ->]; cbn in H; got H; reflexivity.
  - change (Update now m (KeyMsg " "))
      with (Some (set_pause (set_endTime m (deadline now m)) (negb (pause m)),
                  nilCmd, @nil effect)) in H.
    got H. cbn [endTime timeLeft set_pause set_endTime]. unfold deadline.
    rewrite GoIntFacts.mul_id
      by (unfold GoInt.in_range, GoInt.min_int, GoInt.max_int; lia).
    reflexivity.
Qed.

End Details.

(** * The older copy against the newer one *)

Section Copies.

Context {T : Toolkit}.

Lemma silent_app (a b : list effect) : silent (a ++ b) = silent a ++ silent b.
Proof. unfold silent. apply filter_app. Qed.

(** One step of the older copy is the step of the newer one without the
    end time and without the sound. *)
Lemma older_step (now : Z) (m : model) (msg : Msg) :
  Legacy.Update (forget m) msg =
  match Update now m msg with
  | None => None
  | Some (m', c, fx) => Some (forget m', c, silent fx)
  end.
Proof.
  destruct msg as [k | w h | | id tag |].
  - unfold Legacy.Update. key_arms k; try reflexivity.
    + cbn [forget Legacy.cursor].
      destruct (GoInt.index choices (cursor m)) as [ch |]; [|reflexivity].
      destruct (String.eqb ch WORKTIME); [reflexivity|].
      destruct (String.eqb ch RESTTIME); reflexivity.
    + cbv zeta. cbn [forget Legacy.cursor Legacy.set_cursor cursor set_cursor].
      destruct (GoInt.len choices <=? _); reflexivity.
    + cbv zeta. cbn [forget Legacy.cursor Legacy.set_cursor cursor set_cursor].
      destruct (_ <? 0); reflexivity.
  - unfold Legacy.Update, Update. cbv zeta.
    cbn [forget Legacy.progress Legacy.set_Width Legacy.set_progress
         progress set_Width set_progress Width].
    destruct (maxWidth <? _); reflexivity.
  - unfold Legacy.Update, Update. cbn [forget Legacy.pause].
    destruct (pause m); [reflexivity|].
    cbv zeta. unfold SetPercent.
    cbn [forget Legacy.progress Legacy.timeLeft Legacy.timeType
         Legacy.set_timeLeft Legacy.set_progress].
    destruct (PrimFloat.eqb (Percent (progress m)) 1 && (timeLeft m =? 0));
      reflexivity.
  - unfold Legacy.Update, Update, progress_Update. cbn [forget Legacy.progress].
    destruct (frameStep id tag (progress m)); reflexivity.
  - reflexivity.
Qed.

(** X15: The older copy of the model runs in step with the newer one: on the
    same messages it panics when the newer one does, and otherwise ends in
    the same state but for the end time, having made the same calls but for
    the sound. *)
Theorem older_copy_in_step (m : model) (evs : list (Z * Msg)) :
  Legacy.run (forget m) (map snd evs) =
  match run m evs with
  | None => None
  | Some (m', fx) => Some (forget m', silent fx)
  end.
Proof.
  revert m. induction evs as [| [now msg] evs IH]; intros m.
  - reflexivity.
  - cbn [map snd Legacy.run run]. rewrite (older_step now m msg).
    destruct (Update now m msg) as [[[m1 c] fx] |]; [|reflexivity].
    destruct (is_Quit c); [reflexivity|].
    rewrite IH. destruct (run m1 evs) as [[m2 fx2] |]; [|reflexivity].
    rewrite silent_app. reflexivity.
Qed.

(** X16: Both copies show the menu on the same states, when the remaining time
    is at most 0, and show the same menu; with time left, the older copy
    shows the two durations where the newer shows the phase, and the phase
    before the time where the newer shows the end time after it. *)
Theorem older_copy_view (m : model) :
  (timeLeft m <= 0 -> Legacy.View (forget m) = View m) /\
  (0 < timeLeft m < 3600 ->
   Legacy.View (forget m) =
     (Fmt.nl ++ "  25m/05m" ++ Fmt.nl ++ Fmt.nl ++
      "  " ++ progressView (progress m) ++ Fmt.nl ++ Fmt.nl ++
      "  " ++ (timeType m ++ " -> " ++ Fmt.d02 (timeLeft m / 60) ++ "m" ++
               Fmt.d02 (timeLeft m mod 60) ++ "s " ++
               (if pause m then "⏸️" else "▶️")) ++
      "  " ++ helpStyle "Press 'q' key to quit")%string).
Proof.
  split; intros Hl.
  - unfold Legacy.View, View. cbn [forget Legacy.timeLeft].
    destruct (Z.leb_spec (timeLeft m) 0); [reflexivity | lia].
  - unfold Legacy.View. cbn [forget Legacy.timeLeft].
    destruct (Z.leb_spec (timeLeft m) 0); [lia|].
    destruct (clock_below_an_hour m Hl) as [Hmin Hsec].
    unfold secondsLeft, minutesLeft in Hmin, Hsec.
    unfold Legacy.countdownView.
    cbn [forget Legacy.timeLeft Legacy.timeType Legacy.progress Legacy.pause].
    cbv zeta. rewrite Hsec, Hmin. reflexivity.
Qed.

End Copies.

(** * Cancelling, and the silence of the older copy *)

Section Cancelling.

Context {T : Toolkit}.

Lemma work_not_done : forallb (not_done work) (below 1500) = true.
Proof. vm_compute. reflexivity. Qed.

Lemma rest_not_done : forallb (not_done rest) (below 300) = true.
Proof. vm_compute. reflexivity. Qed.

Lemma fraction_below_one (total z : Z) :
  total = work \/ total = rest -> 0 < z <= total ->
  PrimFloat.eqb (fraction total z) 1 = false.
Proof.
  intros Htot Hz. apply negb_true_iff.
  replace z with (z - 1 + 1) by lia. change (not_done total (z - 1) = true).
  destruct Htot as [-> | ->].
  - apply (proj1 (forallb_forall _ _) work_not_done). apply FloatFacts.In_below.
    change work with 1500 in Hz. lia.
  - apply (proj1 (forallb_forall _ _) rest_not_done). apply FloatFacts.In_below.
    change rest with 300 in Hz. lia.
Qed.

(** X14: Cancelling is silent: when a countdown is running and the bar's target
    is the fraction its ticks left there, a Reset followed by a tick makes
    no outward call, and leaves the menu on screen. *)
Theorem reset_cancels_silently (n1 n2 : Z) (m : model) :
  0 < timeLeft m <= totalSeconds m ->
  Percent (progress m) = fraction (totalSeconds m) (timeLeft m) ->
  exists m', run m [(n1, KeyMsg "esc"); (n2, tickMsg)] = Some (m', []) /\
             timeLeft m' = -1 /\ pause m' = false /\ View m' = menuView m'.
Proof.
  intros Hl Hfr.
  assert (Ht : timeType m = WORKTIME \/ timeType m = RESTTIME)
    by (apply totalSeconds_cases; lia).
  pose proof (fraction_below_one _ _ (totalSeconds_choice m Ht) Hl) as Hlt.
  cbn [run]. rewrite Update_esc. cbn [is_Quit].
  rewrite Update_tick; [| reflexivity | exact Ht].
  unfold completion_calls. cbn [progress timeLeft]. rewrite Hfr, Hlt.
  cbn [andb is_Quit app]. eexists. split; [reflexivity|].
  cbn [timeLeft pause]. repeat split.
Qed.

Lemma older_step_silent (m m' : Legacy.model) (msg : Msg) (c : Cmd) (fx : list effect) :
  Legacy.Update m msg = Some (m', c, fx) -> Forall (fun e => is_sound e = false) fx.
Proof.
  intros H. destruct msg as [k | w h | | id tag |].
  - unfold Legacy.Update in H.
    destruct (key_in k ["ctrl+c"; "q"]%string); [got H; constructor|].
    destruct (key_in k ["enter"]%string).
    { destruct (GoInt.index choices (Legacy.cursor m)) as [ch |]; [|discriminate].
      destruct (String.eqb ch WORKTIME);
        [| destruct (String.eqb ch RESTTIME)]; got H; constructor. }
    destruct (key_in k ["down"; "j"]%string); [got H; constructor|].
    destruct (key_in k [" "]%string); [got H; constructor|].
    destruct (key_in k ["esc"]%string); [got H; constructor|].
    destruct (key_in k ["up"; "k"]%string); got H; constructor.
  - unfold Legacy.Update in H. got H. constructor.
  - unfold Legacy.Update in H. destruct (Legacy.pause m); [got H; constructor|].
    cbv zeta in H. unfold SetPercent in H. inversion H; subst; clear H.
    destruct (_ && _); repeat constructor.
  - unfold Legacy.Update, progress_Update in H.
    destruct (frameStep id tag (Legacy.progress m)). got H. constructor.
  - unfold Legacy.Update in H. got H. constructor.
Qed.

(** X17: The older copy never plays the sound: no run of it makes that call. *)
Theorem older_copy_is_silent
  (evs : list Msg) (m m' : Legacy.model) (fx : list effect) :
  Legacy.run m evs = Some (m', fx) -> Forall (fun e => is_sound e = false) fx.
Proof.
  revert m fx. induction evs as [| msg evs IH]; intros m fx H.
  - cbn [Legacy.run] in H. inversion H. constructor.
  - cbn [Legacy.run] in H.
    destruct (Legacy.Update m msg) as [[[m1 c] fx1] |] eqn:Hupd; [|discriminate].
    pose proof (older_step_silent m m1 msg c fx1 Hupd) as H1.
    destruct (is_Quit c); [inversion H; subst; exact H1|].
    destruct (Legacy.run m1 evs) as [[m2 fx2] |] eqn:Hrun; [|discriminate].
    inversion H; subst. apply Forall_app. split; [exact H1 | exact (IH _ _ Hrun)].
Qed.

End Cancelling.

(** * The further properties on concrete runs *)

Lemma ticks_all (n : nat) : Forall isTick (ticks n).
Proof.
  unfold ticks. induction n as [| n IH]; simpl; constructor;
    [reflexivity | exact IH].
Qed.

Lemma calls_only_at_completion_witness :
  tickMsg = tickMsg /\ pause workDone = false /\ timeLeft workDone = 0 /\
  PrimFloat.eqb (Percent (progress workDone)) 1 = true /\
  [PlayNotification; notify "Time to work is left" ""] =
  [PlayNotification;
   notify ("Time to " ++ timeType workDone ++ " is left") EmptyString].
Proof.
  assert (H : Update 0 workDone tickMsg =
              Some (set_timeLeft workDone (-1),
                    Batch [tickCmd; nextFrame],
                    [PlayNotification; notify "Time to work is left" ""]))
    by (vm_compute; reflexivity).
  assert (Hne : [PlayNotification; notify "Time to work is left" ""] <> [])
    by discriminate.
  exact (calls_only_at_completion 0 workDone _ tickMsg _ _ H Hne).
Defined.

Lemma quit_exactly_on_quit_keys_witness :
  (Quit = Quit <-> KeyMsg "q" = KeyMsg "ctrl+c" \/ KeyMsg "q" = KeyMsg "q") /\
  (Quit = Quit -> workRunning = workRunning /\ @nil effect = []).
Proof.
  assert (H : Update 0 workRunning (KeyMsg "q") = Some (workRunning, Quit, []))
    by reflexivity.
  exact (quit_exactly_on_quit_keys 0 workRunning workRunning (KeyMsg "q") Quit [] H).
Defined.

Lemma update_frame_witness :
  (timeLeft (set_pause (set_timeLeft workRunning 0) false) <> timeLeft workRunning ->
   KeyMsg "esc" = KeyMsg "enter" \/ KeyMsg "esc" = KeyMsg "esc" \/
   (KeyMsg "esc" = tickMsg /\ pause workRunning = false)) /\
  (timeType (set_pause (set_timeLeft workRunning 0) false) <> timeType workRunning ->
   KeyMsg "esc" = KeyMsg "enter").
Proof.
  assert (H : Update 0 workRunning (KeyMsg "esc") =
              Some (set_pause (set_timeLeft workRunning 0) false, nilCmd, []))
    by reflexivity.
  pose proof (update_frame 0 workRunning _ (KeyMsg "esc") nilCmd [] H) as F.
  exact (conj (proj1 F) (proj1 (proj2 F))).
Defined.

Lemma run_calls_are_completion_pairs_witness :
  exists (m : @model plainToolkit) fx,
    run NewModel [(0, tickMsg); (0, KeyMsg "esc"); (0, tickMsg)] = Some (m, fx) /\
    completion_pairs fx.
Proof.
  assert (H : Z.of_nat (List.length [(0, tickMsg); (0, KeyMsg "esc"); (0, tickMsg)])
              <= GoInt.max_int)
    by (unfold GoInt.max_int; simpl; lia).
  exact (@run_calls_are_completion_pairs plainToolkit _ H).
Defined.

(** Space, three ticks, space at clock reading 7, on a Work countdown. *)
Lemma pause_freezes_countdown_witness :
  run workRunning ((0, KeyMsg " ") :: ticks 3 ++ [(7, KeyMsg " ")]) =
  Some (set_endTime workRunning (deadline 7 workRunning), []).
Proof.
  exact (pause_freezes_countdown 0 7 (ticks 3) workRunning eq_refl (ticks_all 3)).
Defined.

Lemma cursor_keys_toggle_witness :
  Update 0 workRunning (KeyMsg "j") =
    Some (set_cursor workRunning (1 - cursor workRunning), nilCmd, []) /\
  run workRunning [(0, KeyMsg "j"); (1, KeyMsg "down")] = Some (workRunning, []).
Proof.
  assert (Hc : 0 <= cursor workRunning < GoInt.len choices)
    by (split; vm_compute; easy).
  exact (cursor_keys_toggle 0 1 workRunning "j" "down" Hc eq_refl eq_refl).
Defined.

Lemma clock_adds_up_witness :
  0 <= minutesLeft workRunning < 60 /\
  0 <= secondsLeft workRunning /\
  minutesLeft workRunning * 60 + secondsLeft workRunning = timeLeft workRunning /\
  (secondsLeft workRunning < 60 <-> timeLeft workRunning < 3600).
Proof.
  assert (H : 0 <= timeLeft workRunning <= GoInt.max_int)
    by (split; vm_compute; easy).
  exact (clock_adds_up workRunning H).
Defined.

Lemma clock_text_is_MMmSSs_witness :
  String.length (Fmt.d02 (minutesLeft workRunning)) = 2%nat /\
  String.length (Fmt.d02 (secondsLeft workRunning)) = 2%nat /\
  String.length (Fmt.d02 (minutesLeft workRunning) ++ "m" ++
                 Fmt.d02 (secondsLeft workRunning) ++ "s") = 6%nat.
Proof.
  assert (H : 0 < timeLeft workRunning < 3600) by (split; vm_compute; easy).
  exact (clock_text_is_MMmSSs workRunning H).
Defined.

Lemma tick_rearmed_exactly_once_witness :
  armed (Init pausedMenu) = 1%nat /\ armed tickCmd = 1%nat.
Proof.
  assert (H : Update 0 pausedMenu tickMsg = Some (pausedMenu, tickCmd, []))
    by reflexivity.
  exact (tick_rearmed_exactly_once 0 pausedMenu pausedMenu tickMsg tickCmd [] H).
Defined.

(** A terminal 5 columns wide: the bar gets the width -3. *)
Lemma resize_bounds_witness :
  exists m', Update 0 workRunning (WindowSizeMsg 5 24) = Some (m', nilCmd, []) /\
             Width (progress m') < 0.
Proof.
  destruct (resize_bounds 0 1 workRunning 5 24) as (m' & Hupd & _ & _ & _ & Hneg).
  exists m'. split; [exact Hupd|].
  apply Hneg; [unfold GoInt.min_int, GoInt.max_int; lia | lia].
Defined.

(** Space at clock reading 7 with 1500 seconds left. *)
Lemma end_time_is_now_plus_remaining_witness :
  endTime (set_pause (set_endTime workRunning (deadline 7 workRunning)) true) =
  7 + timeLeft (set_pause (set_endTime workRunning (deadline 7 workRunning)) true)
      * 1000000000.
Proof.
  assert (H : Update 7 workRunning (KeyMsg " ") =
              Some (set_pause (set_endTime workRunning (deadline 7 workRunning)) true,
                    nilCmd, []))
    by reflexivity.
  assert (Hl : - 9223372036 <= timeLeft workRunning <= 9223372036)
    by (split; vm_compute; easy).
  exact (end_time_is_now_plus_remaining 7 workRunning _ (KeyMsg " ") nilCmd []
           H (or_intror eq_refl) Hl).
Defined.

Lemma older_copy_view_witness :
  Legacy.View (forget pausedMenu) = View pausedMenu.
Proof.
  apply (proj1 (older_copy_view pausedMenu)). vm_compute. easy.
Defined.

(** A Work countdown left to run: 1500 ticks, the tick after, five more. *)
Lemma countdown_notifies_once_witness :
  calls (run workRunning (ticks 1500)) = Some [] /\
  calls (run workRunning (ticks 1500 ++ ticks 1)) = Some (completed workRunning) /\
  calls (run workRunning (ticks 1500 ++ ticks 1 ++ ticks 5)) =
    Some (completed workRunning).
Proof.
  assert (Hpos : 0 < totalSeconds workRunning) by (vm_compute; reflexivity).
  assert (Hlen : Z.of_nat (List.length (ticks 1500)) = totalSeconds workRunning)
    by (vm_compute; reflexivity).
  assert (Hafter : Z.of_nat (List.length (ticks 5)) < GoInt.max_int)
    by (vm_compute; reflexivity).
  exact (countdown_notifies_once (ticks 1500) (ticks 1) (ticks 5) workRunning
           (ticks_all 1500) (ticks_all 1) (ticks_all 5)
           eq_refl Hpos eq_refl Hlen eq_refl Hafter).
Defined.

(** Reset with 1499 of 1500 seconds left, after the first tick. *)
Lemma reset_cancels_silently_witness :
  exists m', run (set_progress (set_timeLeft workRunning 1499)
                    (mkProgress 40 (fraction 1500 1499) (@anim0 plainToolkit)))
               [(0, KeyMsg "esc"); (1, tickMsg)] = Some (m', []) /\
             timeLeft m' = -1 /\ pause m' = false /\ View m' = menuView m'.
Proof.
  apply reset_cancels_silently.
  - split; vm_compute; easy.
  - reflexivity.
Defined.

(** The older copy at the end of a Rest countdown: one notification. *)
Lemma older_copy_is_silent_witness :
  Forall (fun e => is_sound e = false) [notify "Time to rest is left" ""].
Proof.
  assert (H : @Legacy.run plainToolkit Legacy.NewModel
                (map snd (restCountdown ++ ticks 1)) =
              Some (Legacy.mkModel (mkProgress 40 1%float (@anim0 plainToolkit))
                      (-1) RESTTIME 1 EmptyString false,
                    [notify "Time to rest is left" ""]))
    by (vm_compute; reflexivity).
  exact (older_copy_is_silent _ _ _ _ H).
Defined.
